(** * SharePointDownloader: the class [SharepointDownloader] of
    [sharepoint_connector.py] (and the lookup loop of [spc_connector.py])
    as Rocq functions, and the properties of its methods.

    The Python methods talk to three outside parties: the identity provider
    (MSAL's [acquire_token_for_client]), the Graph REST API ([requests.get])
    and [urllib]'s [urlretrieve].  They are gathered in a record [world];
    a method is a function of the world that yields the list of the calls it
    made, in order, together with either its return value or the exception
    it raised. *)

From Stdlib Require Import String Ascii List ZArith Lia Bool DecimalString.
Import ListNotations.
Open Scope string_scope.
Set Warnings "-register-all".

(** ** Python values

    What [json.loads] and [Response.json()] hand to the program.  [JNull] is
    Python's [None]; a [dict] is kept as the list of its bindings in insertion
    order (iteration over a dict follows that order) and a key is looked up
    from the front.  Numbers are the integers. *)

Inductive json : Type :=
| JNull
| JBool (b : bool)
| JNum (n : Z)
| JStr (s : string)
| JArr (items : list json)
| JObj (fields : list (string * json)).

(** Exceptions, by Python class.  [LibError] stands for whatever class a
    library call raises ([requests], [msal], [json], [urllib]); only its
    text matters to this program, whose handlers all catch [Exception]. *)

Inductive exn : Type :=
| KeyError (key : string)
| TypeError (msg : string)
| RecursionError (msg : string)
| LibError (cls msg : string)
| RuntimeError (msg : string).

Inductive res (A : Type) : Type :=
| Ok (a : A)
| Raise (e : exn).
Arguments Ok {A} a.
Arguments Raise {A} e.

(** [str(e)]: a [KeyError] prints the [repr] of its key (the keys used below
    are plain literals), every other class prints its message. *)

Definition str_exn (e : exn) : string :=
  match e with
  | KeyError k => "'" ++ k ++ "'"
  | TypeError m | RecursionError m | LibError _ m | RuntimeError m => m
  end.

Module Py.

Definition type_name (v : json) : string :=
  match v with
  | JNull => "NoneType"
  | JBool _ => "bool"
  | JNum _ => "int"
  | JStr _ => "str"
  | JArr _ => "list"
  | JObj _ => "dict"
  end.

Fixpoint lookup (k : string) (fields : list (string * json)) : option json :=
  match fields with
  | [] => None
  | (k', v) :: rest => if String.eqb k' k then Some v else lookup k rest
  end.

(** [v[k]] for a string key [k]. *)
Definition subscript (v : json) (k : string) : res json :=
  match v with
  | JObj fields =>
      match lookup k fields with
      | Some x => Ok x
      | None => Raise (KeyError k)
      end
  | JArr _ => Raise (TypeError "list indices must be integers or slices, not str")
  | JStr _ => Raise (TypeError "string indices must be integers, not 'str'")
  | _ => Raise (TypeError ("'" ++ type_name v ++ "' object is not subscriptable"))
  end.

Fixpoint chars (s : string) : list json :=
  match s with
  | EmptyString => []
  | String c rest => JStr (String c EmptyString) :: chars rest
  end.

(** The elements a [for] loop over [v] runs through. *)
Definition iterate (v : json) : res (list json) :=
  match v with
  | JArr items => Ok items
  | JObj fields => Ok (map (fun kv => JStr (fst kv)) fields)
  | JStr s => Ok (chars s)
  | _ => Raise (TypeError ("'" ++ type_name v ++ "' object is not iterable"))
  end.

(** [v == s] for a string [s]: only an equal string is equal to it. *)
Definition eq_str (v : json) (s : string) : bool :=
  match v with
  | JStr s' => String.eqb s' s
  | _ => false
  end.

Fixpoint infix (k s : string) : bool :=
  if prefix k s then true
  else match s with
       | EmptyString => false
       | String _ rest => infix k rest
       end.

(** [k in v] for a string [k]: key of a dict, element of a list, substring
    of a string. *)
Definition contains (k : string) (v : json) : res bool :=
  match v with
  | JObj fields => Ok (existsb (fun kv => String.eqb (fst kv) k) fields)
  | JArr items => Ok (existsb (fun x => eq_str x k) items)
  | JStr s => Ok (infix k s)
  | _ => Raise (TypeError ("argument of type '" ++ type_name v ++ "' is not iterable"))
  end.

(** Truth value, as tested by [if v:]. *)
Definition truthy (v : json) : bool :=
  match v with
  | JNull => false
  | JBool b => b
  | JNum n => negb (Z.eqb n 0)
  | JStr s => negb (String.eqb s "")
  | JArr items => match items with [] => false | _ => true end
  | JObj fields => match fields with [] => false | _ => true end
  end.

Fixpoint join (sep : string) (l : list string) : string :=
  match l with
  | [] => ""
  | [x] => x
  | x :: rest => x ++ sep ++ join sep rest
  end.

(** [repr(v)].  A string is put between single quotes as it is, which is
    Python's [repr] for text without quotes, backslashes or control
    characters. *)
Fixpoint repr (v : json) : string :=
  match v with
  | JNull => "None"
  | JBool true => "True"
  | JBool false => "False"
  | JNum n => NilZero.string_of_int (Z.to_int n)
  | JStr s => "'" ++ s ++ "'"
  | JArr items => "[" ++ join ", " (map repr items) ++ "]"
  | JObj fields =>
      "{" ++ join ", " (map (fun kv => "'" ++ fst kv ++ "': " ++ repr (snd kv)) fields) ++ "}"
  end.

(** [str(v)], which is what an f-string puts in place of [{v}]. *)
Definition str (v : json) : string :=
  match v with
  | JStr s => s
  | _ => repr v
  end.

Definition dquote : string := String (ascii_of_nat 34) EmptyString.

(** ['Bearer ' + v]. *)
Definition str_add (s : string) (v : json) : res string :=
  match v with
  | JStr s' => Ok (s ++ s')
  | _ => Raise (TypeError ("can only concatenate str (not " ++ dquote ++ type_name v
                             ++ dquote ++ ") to str"))
  end.

End Py.

(** ** The outside world *)

(** The value of the [Authorization] entry of the [headers] dict. *)
Definition headers := string.

(** A response body either parses as JSON or does not. *)
Inductive body : Type :=
| NotJson (msg : string)
| Json (v : json).

(** [requests.get] either raises (no connection, a timeout, ...) or returns a
    response; the HTTP status is never looked at by the program. *)
Inductive reply : Type :=
| ConnectionFailed (e : exn)
| Response (content : body).

Record world : Type := {
  acquire_token_for_client : res json;
  requests_get : string -> headers -> reply;
  urlretrieve : json -> json -> option exn
}.

(** What a method did to the outside, in order. *)
Inductive event : Type :=
| AcquireToken
| Get (url : string) (h : headers)
| Retrieve (url filename : json)
| Print (text : string).

(** ** Running a method: its calls and its outcome *)

Definition M (A : Type) : Type := (list event * res A)%type.

Definition ret {A} (a : A) : M A := ([], Ok a).
Definition raise {A} (e : exn) : M A := ([], Raise e).
Definition lift {A} (r : res A) : M A := ([], r).
Definition emit (ev : event) : M unit := ([ev], Ok tt).

Definition bind {A B} (m : M A) (k : A -> M B) : M B :=
  match snd m with
  | Ok a => ((fst m ++ fst (k a))%list, snd (k a))
  | Raise e => (fst m, Raise e)
  end.

Notation "x <- m ;; k" := (bind m (fun x => k))
  (at level 61, m at next level, right associativity).
Notation "m ;;; k" := (bind m (fun _ => k))
  (at level 61, right associativity).

(** [try: m  except Exception as e: handler e]. *)
Definition try_except {A} (m : M A) (handler : exn -> M A) : M A :=
  match snd m with
  | Ok a => m
  | Raise e => ((fst m ++ fst (handler e))%list, snd (handler e))
  end.

Definition prefix_msg : string := "Erro ao baixar arquivo: ".

(** [raise RuntimeError(f'Erro ao baixar arquivo: {e}')]. *)
Definition reraise {A} (e : exn) : M A :=
  raise (RuntimeError (prefix_msg ++ str_exn e)).

Definition print (text : string) : M unit := emit (Print text).

(** The instance.  [__init__] resolves the site and stores the address of
    its drives, which ends in [drives/], in [self.url]; the methods read
    nothing else of the instance but the MSAL application, which belongs to
    the world. *)
Record SharepointDownloader : Type := {
  url : string
}.

Definition downloadUrl : string := "@microsoft.graph.downloadUrl".

Section Methods.

Variable self : SharepointDownloader.
Variable w : world.

Definition app_acquire_token : M json :=
  emit AcquireToken ;;; lift (acquire_token_for_client w).

Definition get (u : string) (h : headers) : M body :=
  emit (Get u h) ;;;
  match requests_get w u h with
  | ConnectionFailed e => raise e
  | Response content => ret content
  end.

(** [json.loads(response.content)] and [response.json()]. *)
Definition loads (b : body) : M json :=
  match b with
  | Json v => ret v
  | NotJson msg => raise (LibError "JSONDecodeError" msg)
  end.

Definition get_token : M headers :=
  try_except
    (result <- app_acquire_token ;;
     access_token <- lift (Py.subscript result "access_token") ;;
     lift (Py.str_add "Bearer " access_token))
    reraise.

(** The [for] loop of [get_response_id]. *)
Fixpoint response_loop (items : list json) (folder_match : string) : M json :=
  match items with
  | [] => ret JNull
  | item :: rest =>
      name <- lift (Py.subscript item "name") ;;
      if Py.eq_str name folder_match
      then lift (Py.subscript item "id")
      else response_loop rest folder_match
  end.

Definition get_response_id (result_json : body) (folder_match : string) : M json :=
  try_except
    (result_json <- loads result_json ;;
     value <- lift (Py.subscript result_json "value") ;;
     items <- lift (Py.iterate value) ;;
     response_loop items folder_match)
    reraise.

Definition get_drive_id (folder_match : string) : M (json * json) :=
  try_except
    (headers <- get_token ;;
     response <- get (url self) headers ;;
     drive_id <- get_response_id response "Documents" ;;
     drive_response <- get (url self ++ Py.str drive_id ++ "/root/children") headers ;;
     root_folder_id <- get_response_id drive_response folder_match ;;
     ret (drive_id, root_folder_id))
    reraise.

Definition folder_url (drive_id folder_id : json) : string :=
  url self ++ "/" ++ Py.str drive_id ++ "/items/" ++ Py.str folder_id ++ "/children".

(** The [for] loop of [find_file]; [recurse] is the recursive call
    [self.find_file(drive_id, sub_folder_id, target_file_name, headers)]. *)
Fixpoint find_loop (recurse : json -> M json) (target_file_name : string)
         (items : list json) : M json :=
  match items with
  | [] => ret JNull
  | item :: rest =>
      is_file <- lift (Py.contains downloadUrl item) ;;
      if is_file : bool then
        name <- lift (Py.subscript item "name") ;;
        if Py.eq_str name target_file_name
        then lift (Py.subscript item "id")
        else find_loop recurse target_file_name rest
      else
        is_folder <- lift (Py.contains "folder" item) ;;
        if is_folder : bool then
          sub_folder_id <- lift (Py.subscript item "id") ;;
          file_id <- recurse sub_folder_id ;;
          if Py.truthy file_id
          then ret file_id
          else find_loop recurse target_file_name rest
        else find_loop recurse target_file_name rest
  end.

Definition recursion_msg : string := "maximum recursion depth exceeded".

(** [depth] is the number of nested calls of [find_file] the interpreter
    still allows: a call beyond it does not start and raises
    [RecursionError] at the place of the call. *)
Fixpoint find_file (depth : nat) (drive_id folder_id : json)
         (target_file_name : string) (headers : headers) : M json :=
  match depth with
  | O => raise (RecursionError recursion_msg)
  | S depth' =>
      try_except
        (folder_response <- get (folder_url drive_id folder_id) headers ;;
         folder_result <- loads folder_response ;;
         value <- lift (Py.subscript folder_result "value") ;;
         items <- lift (Py.iterate value) ;;
         find_loop (fun sub_folder_id =>
                      find_file depth' drive_id sub_folder_id target_file_name headers)
                   target_file_name items)
        reraise
  end.

Definition file_url (drive_id file_id : json) : string :=
  url self ++ "/" ++ Py.str drive_id ++ "/items/" ++ Py.str file_id.

Definition retrieve (u filename : json) : M unit :=
  emit (Retrieve u filename) ;;;
  match urlretrieve w u filename with
  | Some e => raise e
  | None => ret tt
  end.

Definition msg_downloaded : string := "Arquivo baixado com sucesso!".
Definition msg_not_found : string := "Arquivo não encontrado.".

Definition download_file (depth : nat) (target_file_name folder_match : string) : M unit :=
  try_except
    (headers <- get_token ;;
     ids <- get_drive_id folder_match ;;
     file_id <- find_file depth (fst ids) (snd ids) target_file_name headers ;;
     if Py.truthy file_id then
       file_response <- get (file_url (fst ids) file_id) headers ;;
       file_result <- loads file_response ;;
       file_download_url <- lift (Py.subscript file_result downloadUrl) ;;
       name <- lift (Py.subscript file_result "name") ;;
       retrieve file_download_url name ;;;
       print msg_downloaded
     else
       print msg_not_found)
    reraise.

End Methods.

(** ** [spc_connector.py]

    The second file holds an earlier state of the same class.  Its loop in
    [find_file] is the one above; its handler prints the error and lets the
    method end, so the call returns [None]. *)

Module Spc.

Definition swallow (e : exn) : M json :=
  print ("Error: " ++ str_exn e) ;;; ret JNull.

Fixpoint find_file (self : SharepointDownloader) (w : world) (depth : nat)
         (drive_id folder_id : json) (target_file_name : string)
         (headers : headers) : M json :=
  match depth with
  | O => raise (RecursionError recursion_msg)
  | S depth' =>
      try_except
        (folder_response <- get w (folder_url self drive_id folder_id) headers ;;
         folder_result <- loads folder_response ;;
         value <- lift (Py.subscript folder_result "value") ;;
         items <- lift (Py.iterate value) ;;
         find_loop (fun sub_folder_id =>
                      find_file self w depth' drive_id sub_folder_id
                                target_file_name headers)
                   target_file_name items)
        swallow
  end.

(** [get_response_id] of [spc_connector.py]: the same body, the printing
    handler. *)
Definition get_response_id (result_json : body) (folder_match : string) : M json :=
  try_except
    (result_json <- loads result_json ;;
     value <- lift (Py.subscript result_json "value") ;;
     items <- lift (Py.iterate value) ;;
     response_loop items folder_match)
    swallow.

End Spc.

(** ** Folder trees

    What the Graph API lists under a folder: files (entries that carry a
    direct-download URL), folders (entries without one that carry the
    [folder] marker) and entries that are neither. *)

Inductive node : Type :=
| File (name id : string)
| Folder (name id : string) (children : list node)
| Other (name id : string).

Definition node_name (n : node) : string :=
  match n with File name _ | Folder name _ _ | Other name _ => name end.

Definition node_id (n : node) : string :=
  match n with File _ id | Folder _ id _ | Other _ id => id end.

(** The JSON entry [item] of a listing stands for the node [n]. *)
Definition entry_of (item : json) (n : node) : Prop :=
  Py.subscript item "name" = Ok (JStr (node_name n)) /\
  Py.subscript item "id" = Ok (JStr (node_id n)) /\
  match n with
  | File _ _ => Py.contains downloadUrl item = Ok true
  | Folder _ _ _ =>
      Py.contains downloadUrl item = Ok false /\ Py.contains "folder" item = Ok true
  | Other _ _ =>
      Py.contains downloadUrl item = Ok false /\ Py.contains "folder" item = Ok false
  end.

(** The world answers the listing request of folder [folder_id] with the
    entries of [kids], and so on below every folder among them. *)
Inductive serves (self : SharepointDownloader) (w : world) (h : headers)
          (drive_id : json) : string -> list node -> Prop :=
| serves_folder : forall folder_id kids payload items,
    requests_get w (folder_url self drive_id (JStr folder_id)) h = Response (Json payload) ->
    Py.subscript payload "value" = Ok (JArr items) ->
    Forall2 entry_of items kids ->
    (forall name id sub, In (Folder name id sub) kids -> serves self w h drive_id id sub) ->
    serves self w h drive_id folder_id kids.

Fixpoint height (n : node) : nat :=
  match n with
  | Folder _ _ kids => S (list_max (map height kids))
  | _ => 0
  end.

(** Nested calls of [find_file] needed to go through a folder holding [kids]. *)
Definition levels (kids : list node) : nat := S (list_max (map height kids)).

(** The identifiers of the folders of a tree, parents before children and
    siblings in listing order. *)
Fixpoint folder_ids (n : node) : list string :=
  match n with
  | Folder _ id kids => id :: flat_map folder_ids kids
  | _ => []
  end.

(** Some file of the tree is called [target]. *)
Fixpoint has_file (target : string) (n : node) : bool :=
  match n with
  | File name _ => String.eqb name target
  | Folder _ _ kids => existsb (has_file target) kids
  | Other _ _ => false
  end.

(** ** The search as section 4.4 of the specification words it

    [scan] goes through the entries of one folder in listing order; the
    result is the list of the folders whose children were listed and the
    handle found, if any.  [accept] says which results of a recursive call
    count as a handle to be passed upward. *)

Section Search.

Variable accept : string -> bool.
Variable target : string.

Fixpoint scan (descend : node -> list string * option string)
         (kids : list node) : list string * option string :=
  match kids with
  | [] => ([], None)
  | k :: rest =>
      match k with
      | File name id =>
          if String.eqb name target then ([], Some id) else scan descend rest
      | Folder _ _ _ =>
          let sub := descend k in
          match snd sub with
          | Some handle =>
              if accept handle then sub
              else ((fst sub ++ fst (scan descend rest))%list, snd (scan descend rest))
          | None => ((fst sub ++ fst (scan descend rest))%list, snd (scan descend rest))
          end
      | Other _ _ => scan descend rest
      end
  end.

Fixpoint search_node (n : node) : list string * option string :=
  match n with
  | Folder _ id kids => (id :: fst (scan search_node kids), snd (scan search_node kids))
  | _ => ([], None)
  end.

Definition search (folder_id : string) (kids : list node) : list string * option string :=
  (folder_id :: fst (scan search_node kids), snd (scan search_node kids)).

End Search.

(** Section 4.4 as written: whatever handle the recursive call yields is
    passed upward. *)
Definition search_spec : string -> string -> list node -> list string * option string :=
  search (fun _ => true).

(** With the test [if file_id:] of the code: an empty identifier does not
    count. *)
Definition nonempty (handle : string) : bool := negb (String.eqb handle "").

Definition search_truthy : string -> string -> list node -> list string * option string :=
  search nonempty.

(** The listing requests for the folders [visited], and the Python value of a
    search result. *)
Definition listing_calls (self : SharepointDownloader) (drive_id : json) (h : headers)
           (visited : list string) : list event :=
  map (fun id => Get (folder_url self drive_id (JStr id)) h) visited.

Definition handle_value (r : option string) : json :=
  match r with
  | Some id => JStr id
  | None => JNull
  end.

Definition run_search (self : SharepointDownloader) (drive_id : json) (h : headers)
           (o : list string * option string) : M json :=
  (listing_calls self drive_id h (fst o), Ok (handle_value (snd o))).

(** ** Listings for [get_response_id] *)

(** The entry is called [n]: its [name] is the string [n], character for
    character. *)
Definition is_named (n : string) (item : json) : bool :=
  match Py.subscript item "name" with
  | Ok name => Py.eq_str name n
  | Raise _ => false
  end.

(** The first entry of [items], in listing order, that is called [n]. *)
Definition first_named (n : string) (items : list json) : option json :=
  find (is_named n) items.

(** An entry of a well-formed listing has a name and an id. *)
Definition has_name_and_id (item : json) : Prop :=
  exists name id, Py.subscript item "name" = Ok name /\ Py.subscript item "id" = Ok id.

(** The payload is a listing: its [value] is the array [items] of such
    entries. *)
Definition listing (payload : json) (items : list json) : Prop :=
  Py.subscript payload "value" = Ok (JArr items) /\ Forall has_name_and_id items.

(** ** Concrete worlds *)

Module Scenario.

Definition self : SharepointDownloader :=
  {| url := "https://graph.microsoft.com/v1.0/sites/site-1/drives/" |}.

Definition token_ok : res json :=
  Ok (JObj [("token_type", JStr "Bearer"); ("access_token", JStr "tok")]).

Definition hdr : headers := "Bearer tok".

(** What Graph answers for an address it does not know. *)
Definition graph_error : reply :=
  Response (Json (JObj [("error", JObj [("code", JStr "itemNotFound");
                                        ("message", JStr "The resource could not be found.")])])).

Fixpoint table (rows : list (string * reply)) (u : string) (h : headers) : reply :=
  match rows with
  | [] => graph_error
  | (u', r) :: rest => if String.eqb u' u then r else table rest u h
  end.

Definition file_entry (name id : string) : json :=
  JObj [("@microsoft.graph.downloadUrl", JStr ("https://download.example/" ++ id));
        ("id", JStr id); ("name", JStr name); ("file", JObj [("mimeType", JStr "application/octet-stream")])].

Definition folder_entry (name id : string) : json :=
  JObj [("id", JStr id); ("name", JStr name); ("folder", JObj [("childCount", JNum 1)])].

Definition drive_entry (name id : string) : json :=
  JObj [("id", JStr id); ("name", JStr name); ("driveType", JStr "documentLibrary")].

Definition page (items : list json) : reply :=
  Response (Json (JObj [("@odata.context", JStr "ctx"); ("value", JArr items)])).

Definition no_retrieve_error (u filename : json) : option exn := None.

(** Scenario A of the specification:
    [{Reports/{Q1.xlsx, Archive/{Q1.xlsx, Q2.xlsx}}}]. *)
Definition reports : list node :=
  [File "Q1.xlsx" "q1"; Folder "Archive" "archive" [File "Q1.xlsx" "aq1"; File "Q2.xlsx" "aq2"]].

Definition archive_url : string := folder_url self (JStr "drive-1") (JStr "archive").

Definition rows_A : list (string * reply) :=
  [(url self, page [drive_entry "Documents" "drive-1"]);
   (url self ++ "drive-1/root/children", page [folder_entry "Reports" "reports"]);
   (folder_url self (JStr "drive-1") (JStr "reports"),
    page [file_entry "Q1.xlsx" "q1"; folder_entry "Archive" "archive"]);
   (archive_url, page [file_entry "Q1.xlsx" "aq1"; file_entry "Q2.xlsx" "aq2"]);
   (file_url self (JStr "drive-1") (JStr "q1"), Response (Json (file_entry "Q1.xlsx" "q1")))].

Definition world_A : world :=
  {| acquire_token_for_client := token_ok;
     requests_get := table rows_A;
     urlretrieve := no_retrieve_error |}.

(** A folder whose file has the empty string as identifier, listed before
    a folder that holds a file of the same name. *)
Definition empty_id_tree : list node :=
  [Folder "A" "a" [File "t.txt" ""]; Folder "B" "b" [File "t.txt" "b1"]].

Definition rows_E : list (string * reply) :=
  [(folder_url self (JStr "drive-1") (JStr "root"),
    page [folder_entry "A" "a"; folder_entry "B" "b"]);
   (folder_url self (JStr "drive-1") (JStr "a"), page [file_entry "t.txt" ""]);
   (folder_url self (JStr "drive-1") (JStr "b"), page [file_entry "t.txt" "b1"])].

Definition world_E : world :=
  {| acquire_token_for_client := token_ok;
     requests_get := table rows_E;
     urlretrieve := no_retrieve_error |}.

(** Scenario A with a listing of [Archive] that is not JSON. *)
Definition rows_F : list (string * reply) :=
  (archive_url, Response (NotJson "Expecting value: line 1 column 1 (char 0)")) :: rows_A.

Definition world_F : world :=
  {| acquire_token_for_client := token_ok;
     requests_get := table rows_F;
     urlretrieve := no_retrieve_error |}.

(** A site whose library is called [Documentos], with a server that
    answers the children request for the drive [None]. *)
Definition rows_N : list (string * reply) :=
  [(url self, page [drive_entry "Documentos" "drive-9"]);
   (url self ++ "None/root/children", page [folder_entry "Reports" "reports"])].

Definition world_N : world :=
  {| acquire_token_for_client := token_ok;
     requests_get := table rows_N;
     urlretrieve := no_retrieve_error |}.

(** The same site with Graph's own answer for the drive [None]. *)
Definition world_N' : world :=
  {| acquire_token_for_client := token_ok;
     requests_get := table [(url self, page [drive_entry "Documentos" "drive-9"])];
     urlretrieve := no_retrieve_error |}.

(** A library whose children request is answered with an error body. *)
Definition world_R : world :=
  {| acquire_token_for_client := token_ok;
     requests_get := table [(url self, page [drive_entry "Documents" "drive-1"])];
     urlretrieve := no_retrieve_error |}.

(** The drive root lists a file called [Reports]; the library itself is a
    file entry called [Documents]. *)
Definition rows_K : list (string * reply) :=
  [(url self, page [file_entry "Documents" "doc-file"; drive_entry "Documents" "drive-1"]);
   (url self ++ "doc-file/root/children",
    page [file_entry "Reports" "reports-file"; folder_entry "Reports" "reports"])].

Definition world_K : world :=
  {| acquire_token_for_client := token_ok;
     requests_get := table rows_K;
     urlretrieve := no_retrieve_error |}.

(** The identity provider answers with an error. *)
Definition provider_message : string := "AADSTS7000215: Invalid client secret provided.".

Definition token_refused : res json :=
  Ok (JObj [("error", JStr "invalid_client"); ("error_description", JStr provider_message);
            ("error_codes", JArr [JNum 7000215])]).

Definition world_X : world :=
  {| acquire_token_for_client := token_refused;
     requests_get := table rows_A;
     urlretrieve := no_retrieve_error |}.

(** Scenario A on a host where the transfer of the file fails. *)
Definition transfer_error : exn := LibError "URLError" "<urlopen error timed out>".

Definition world_T : world :=
  {| acquire_token_for_client := token_ok;
     requests_get := table rows_A;
     urlretrieve := fun _ _ => Some transfer_error |}.

End Scenario.

(** A listing request that failed: no response, or a body that is not JSON. *)
Definition failed (r : reply) : Prop :=
  match r with
  | ConnectionFailed _ => True
  | Response (NotJson _) => True
  | Response (Json _) => False
  end.

Definition failing_call (w : world) (trace : list event) : Prop :=
  exists u h, In (Get u h) trace /\ failed (requests_get w u h).

Definition raises {A} (m : M A) : Prop := exists e, snd m = Raise e.




(** ** The constructor

    [__init__] reads its five arguments, falls back on the process
    environment (as left by [load_dotenv]), builds the MSAL application and
    asks Graph for the site.  The host of the process gives the environment,
    the MSAL constructor (which raises, or yields the application, that is
    what its [acquire_token_for_client] will answer) and the network. *)

Record host : Type := {
  environ : string -> option string;
  ConfidentialClientApplication : json -> string -> json -> res (res json);
  network_get : string -> headers -> reply;
  network_retrieve : json -> json -> option exn
}.

(** [os.environ.get(key)]. *)
Definition environ_get (p : host) (key : string) : json :=
  match environ p key with
  | Some v => JStr v
  | None => JNull
  end.

(** [a or b]. *)
Definition py_or (a b : json) : json := if Py.truthy a then a else b.

Definition site_url (company_tenant_id site_name : json) : string :=
  "https://graph.microsoft.com/v1.0/sites/" ++ Py.str company_tenant_id
    ++ ":/sites/" ++ Py.str site_name.

Definition drives_url (site_id : json) : string :=
  "https://graph.microsoft.com/v1.0/sites/" ++ Py.str site_id ++ "/drives/".

(** The world in which the methods of the instance run. *)
Definition world_of (p : host) (app : res json) : world :=
  {| acquire_token_for_client := app;
     requests_get := network_get p;
     urlretrieve := network_retrieve p |}.

(** The result is the instance together with the world of its methods.
    Nothing here is inside a [try]. *)
Definition __init__ (p : host)
           (company_tenant_id client_id client_secret tenant_id site_name : json)
  : M (SharepointDownloader * world) :=
  let COMPANY_TENANT_ID := py_or company_tenant_id (environ_get p "COMPANY_TENANT_ID") in
  let CLIENT_ID := py_or client_id (environ_get p "CLIENT_ID") in
  let CLIENT_SECRET := py_or client_secret (environ_get p "CLIENT_SECRET") in
  let TENANT_ID := py_or tenant_id (environ_get p "TENANT_ID") in
  let SITE_NAME := py_or site_name (environ_get p "SITE_NAME") in
  authority <- lift (Py.str_add "https://login.microsoftonline.com/" TENANT_ID) ;;
  app <- lift (ConfidentialClientApplication p CLIENT_ID authority CLIENT_SECRET) ;;
  headers <- get_token (world_of p app) ;;
  response <- get (world_of p app) (site_url COMPANY_TENANT_ID SITE_NAME) headers ;;
  site <- loads response ;;
  SHAREPOINT_SITE_ID <- lift (Py.subscript site "id") ;;
  ret ({| url := drives_url SHAREPOINT_SITE_ID |}, world_of p app).

(** ** More about trees and traces *)

(** Some file of the tree is called [target] and has the identifier [id]. *)
Fixpoint has_file_id (target id : string) (n : node) : bool :=
  match n with
  | File name i => String.eqb name target && String.eqb i id
  | Folder _ _ kids => existsb (has_file_id target id) kids
  | Other _ _ => false
  end.

(** No file called [target] has the empty identifier. *)
Fixpoint target_ids_nonempty (target : string) (n : node) : bool :=
  match n with
  | File name i => negb (String.eqb name target) || nonempty i
  | Folder _ _ kids => forallb (target_ids_nonempty target) kids
  | Other _ _ => true
  end.

Definition is_folder (n : node) : bool :=
  match n with Folder _ _ _ => true | _ => false end.

(** The event is a listing request for some folder of the drive, sent with
    the headers [h]. *)
Definition listing_request (self : SharepointDownloader) (drive_id : json) (h : headers)
           (ev : event) : Prop :=
  exists folder_id, ev = Get (folder_url self drive_id folder_id) h.

Definition is_get (ev : event) : bool :=
  match ev with Get _ _ => true | _ => false end.

Definition is_retrieve (ev : event) : bool :=
  match ev with Retrieve _ _ => true | _ => false end.

(** The branch of [download_file] taken when the search returned an
    identifier [file_id] that counts as true. *)
Definition fetch_file (self : SharepointDownloader) (w : world) (drive_id file_id : json)
           (headers : headers) : M unit :=
  file_response <- get w (file_url self drive_id file_id) headers ;;
  file_result <- loads file_response ;;
  file_download_url <- lift (Py.subscript file_result downloadUrl) ;;
  name <- lift (Py.subscript file_result "name") ;;
  retrieve w file_download_url name ;;;
  print msg_downloaded.

(** ** Concrete hosts *)

Module Hosts.

(** A process whose environment holds the five settings. *)
Definition environ_A (key : string) : option string :=
  if String.eqb key "COMPANY_TENANT_ID" then Some "contoso.sharepoint.com"
  else if String.eqb key "CLIENT_ID" then Some "client-1"
  else if String.eqb key "CLIENT_SECRET" then Some "secret-1"
  else if String.eqb key "TENANT_ID" then Some "tenant-1"
  else if String.eqb key "SITE_NAME" then Some "Finance"
  else None.

Definition site_A : string :=
  site_url (JStr "contoso.sharepoint.com") (JStr "Finance").

Definition site_reply : reply :=
  Response (Json (JObj [("id", JStr "site-1"); ("name", JStr "Finance")])).

Definition host_A : host :=
  {| environ := environ_A;
     ConfidentialClientApplication := fun _ _ _ => Ok Scenario.token_ok;
     network_get := Scenario.table ((site_A, site_reply) :: Scenario.rows_A);
     network_retrieve := Scenario.no_retrieve_error |}.

(** The same process with an empty environment. *)
Definition host_bare : host :=
  {| environ := fun _ => None;
     ConfidentialClientApplication := fun _ _ _ => Ok Scenario.token_ok;
     network_get := Scenario.table ((site_A, site_reply) :: Scenario.rows_A);
     network_retrieve := Scenario.no_retrieve_error |}.

(** The provider refuses the application. *)
Definition host_refused : host :=
  {| environ := environ_A;
     ConfidentialClientApplication := fun _ _ _ => Ok Scenario.token_refused;
     network_get := Scenario.table ((site_A, site_reply) :: Scenario.rows_A);
     network_retrieve := Scenario.no_retrieve_error |}.

(** Graph does not know the site. *)
Definition host_no_site : host :=
  {| environ := environ_A;
     ConfidentialClientApplication := fun _ _ _ => Ok Scenario.token_ok;
     network_get := Scenario.table Scenario.rows_A;
     network_retrieve := Scenario.no_retrieve_error |}.

End Hosts.

(** * Properties *)

(** ** Running binds *)

Lemma pair_eta {A B} (p : A * B) : (fst p, snd p) = p.
Proof. destruct p; reflexivity. Qed.

Lemma bind_lift_ok {A B} (a : A) (k : A -> M B) : bind (lift (Ok a)) k = k a.
Proof. unfold bind, lift; simpl. apply pair_eta. Qed.

Lemma bind_ret {A B} (a : A) (k : A -> M B) : bind (ret a) k = k a.
Proof. apply bind_lift_ok. Qed.

Lemma bind_lift_raise {A B} (e : exn) (k : A -> M B) :
  bind (lift (Raise e)) k = ([], Raise e).
Proof. reflexivity. Qed.

Lemma bind_ok {A B} (m : M A) (k : A -> M B) a :
  snd m = Ok a -> bind m k = ((fst m ++ fst (k a))%list, snd (k a)).
Proof. intros H; unfold bind; rewrite H; reflexivity. Qed.

Lemma bind_raise {A B} (m : M A) (k : A -> M B) e :
  snd m = Raise e -> bind m k = (fst m, Raise e).
Proof. intros H; unfold bind; rewrite H; reflexivity. Qed.

Lemma try_except_ok {A} (m : M A) handler a :
  snd m = Ok a -> try_except m handler = m.
Proof. intros H; unfold try_except; rewrite H; reflexivity. Qed.

Lemma get_response {B w u h content} (k : body -> M B) :
  requests_get w u h = Response content ->
  bind (get w u h) k = ((Get u h :: fst (k content)), snd (k content)).
Proof.
  intros H. unfold get, bind, emit; simpl. rewrite H; reflexivity.
Qed.

Lemma get_failed {B w u h e} (k : body -> M B) :
  requests_get w u h = ConnectionFailed e ->
  bind (get w u h) k = ([Get u h], Raise e).
Proof.
  intros H. unfold get, bind, emit; simpl. rewrite H; reflexivity.
Qed.

Lemma listing_calls_app self drive_id h v1 v2 :
  listing_calls self drive_id h (v1 ++ v2)
  = (listing_calls self drive_id h v1 ++ listing_calls self drive_id h v2)%list.
Proof. apply map_app. Qed.

Lemma height_in (k : node) (kids : list node) :
  In k kids -> height k <= list_max (map height kids).
Proof.
  intros H.
  assert (F : Forall (fun n => n <= list_max (map height kids)) (map height kids))
    by (apply list_max_le; lia).
  rewrite Forall_forall in F. apply F, in_map, H.
Qed.

Lemma levels_in name id sub kids :
  In (Folder name id sub) kids -> levels sub < levels kids.
Proof.
  intros H. apply height_in in H. simpl in H. unfold levels. lia.
Qed.

(** ** The loop of [find_file] against the worded search *)

Section FindLoop.

Variable self : SharepointDownloader.
Variable drive_id : json.
Variable h : headers.
Variable target : string.

Lemma find_loop_scan (recurse : json -> M json) (items : list json) (kids : list node) :
  Forall2 entry_of items kids ->
  (forall name id sub, In (Folder name id sub) kids ->
     recurse (JStr id) = run_search self drive_id h (search_truthy target id sub)) ->
  find_loop recurse target items
  = run_search self drive_id h (scan nonempty target (search_node nonempty target) kids).
Proof.
  induction 1 as [| item k items kids E F IH]; intros R.
  - reflexivity.
  - assert (IH' := IH (fun name id sub I => R name id sub (or_intror I))).
    destruct E as (En & Ei & Ek).
    destruct k as [name id | name id sub | name id]; simpl in En, Ei.
    + simpl find_loop. rewrite Ek, bind_lift_ok, En, bind_lift_ok. simpl Py.eq_str.
      simpl scan. destruct (String.eqb name target).
      * rewrite Ei. reflexivity.
      * exact IH'.
    + destruct Ek as (Ef & Ed).
      simpl find_loop. rewrite Ef, bind_lift_ok, Ed, bind_lift_ok, Ei, bind_lift_ok.
      rewrite (R name id sub (or_introl eq_refl)).
      unfold search_truthy, search. fold nonempty.
      simpl scan. simpl snd at 2 3. simpl fst at 2 3.
      set (o := scan nonempty target (search_node nonempty target) sub) in *.
      erewrite bind_ok by reflexivity.
      rewrite IH'. unfold run_search at 1 2 3. simpl fst. simpl snd.
      destruct (snd o) as [handle |]; simpl handle_value; simpl Py.truthy.
      * fold (nonempty handle). destruct (nonempty handle); simpl.
        -- unfold run_search. simpl. rewrite app_nil_r. reflexivity.
        -- unfold run_search. simpl. rewrite listing_calls_app. reflexivity.
      * simpl. unfold run_search. simpl. rewrite listing_calls_app. reflexivity.
    + destruct Ek as (Ef & Ed).
      simpl find_loop. rewrite Ef, bind_lift_ok, Ed, bind_lift_ok.
      exact IH'.
Qed.

End FindLoop.

(** ** [find_file] against the worded search *)

Section FindFile.

Variable self : SharepointDownloader.
Variable w : world.
Variable h : headers.
Variable drive_id : json.
Variable target : string.

(** What both versions of [find_file] run inside their [try]. *)
Lemma listing_body (recurse : json -> M json) folder_id kids :
  serves self w h drive_id folder_id kids ->
  (forall name id sub, In (Folder name id sub) kids ->
     recurse (JStr id) = run_search self drive_id h (search_truthy target id sub)) ->
  (folder_response <- get w (folder_url self drive_id (JStr folder_id)) h ;;
   folder_result <- loads folder_response ;;
   value <- lift (Py.subscript folder_result "value") ;;
   items <- lift (Py.iterate value) ;;
   find_loop recurse target items)
  = run_search self drive_id h (search_truthy target folder_id kids).
Proof.
  intros S R. inversion S as [? ? payload items Hget Hval Hent Hsub]; subst.
  rewrite (get_response _ Hget). cbn [loads].
  rewrite bind_ret, Hval, bind_lift_ok. cbn [Py.iterate].
  rewrite bind_lift_ok, (find_loop_scan self drive_id h target recurse items kids Hent R).
  reflexivity.
Qed.

Lemma find_file_search depth : forall folder_id kids,
  serves self w h drive_id folder_id kids ->
  levels kids <= depth ->
  find_file self w depth drive_id (JStr folder_id) target h
  = run_search self drive_id h (search_truthy target folder_id kids).
Proof.
  induction depth as [| d IH]; intros folder_id kids S L.
  - unfold levels in L; lia.
  - cbn [find_file]. rewrite (listing_body _ folder_id kids S).
    + reflexivity.
    + intros name id sub I. apply IH.
      * inversion S; subst; eauto.
      * apply levels_in in I. lia.
Qed.

Lemma spc_find_file_search depth : forall folder_id kids,
  serves self w h drive_id folder_id kids ->
  levels kids <= depth ->
  Spc.find_file self w depth drive_id (JStr folder_id) target h
  = run_search self drive_id h (search_truthy target folder_id kids).
Proof.
  induction depth as [| d IH]; intros folder_id kids S L.
  - unfold levels in L; lia.
  - cbn [Spc.find_file]. rewrite (listing_body _ folder_id kids S).
    + reflexivity.
    + intros name id sub I. apply IH.
      * inversion S; subst; eauto.
      * apply levels_in in I. lia.
Qed.

End FindFile.

(** ** Strings and addresses *)

Lemma length_app (a b : string) : String.length (a ++ b) = String.length a + String.length b.
Proof. induction a as [| c a IH]; simpl; [reflexivity | rewrite IH; reflexivity]. Qed.

Lemma app_inv_head (p a b : string) : p ++ a = p ++ b -> a = b.
Proof. induction p as [| c p IH]; simpl; intros H; [exact H | injection H; auto]. Qed.

Lemma app_inv_tail (a b s : string) : a ++ s = b ++ s -> a = b.
Proof.
  revert b; induction a as [| c a IH]; intros [| c' b] H; simpl in H.
  - reflexivity.
  - apply (f_equal String.length) in H. simpl in H. rewrite length_app in H. lia.
  - apply (f_equal String.length) in H. simpl in H. rewrite length_app in H. lia.
  - injection H as -> H. f_equal. apply IH, H.
Qed.

Lemma folder_url_inj self drive_id (a b : string) :
  folder_url self drive_id (JStr a) = folder_url self drive_id (JStr b) -> a = b.
Proof.
  unfold folder_url; cbn [Py.str]. intros H.
  repeat apply app_inv_head in H. apply app_inv_tail in H. exact H.
Qed.

Lemma NoDup_map_inj {A B} (f : A -> B) (l : list A) :
  (forall x y, f x = f y -> x = y) -> NoDup l -> NoDup (map f l).
Proof.
  intros I; induction 1 as [| x l N D IH]; simpl; constructor; auto.
  intros H; apply in_map_iff in H as (y & E & Y). apply I in E; subst; auto.
Qed.

Lemma listing_calls_NoDup self drive_id h visited :
  NoDup visited -> NoDup (listing_calls self drive_id h visited).
Proof.
  apply NoDup_map_inj. intros x y E. injection E as E. eapply folder_url_inj, E.
Qed.

(** ** A tree without the target *)

Lemma scan_absent accept target (n : nat) : forall kids,
  list_max (map height kids) < n ->
  existsb (has_file target) kids = false ->
  scan accept target (search_node accept target) kids = (flat_map folder_ids kids, None).
Proof.
  induction n as [| n IHn]; intros kids B; [lia |].
  induction kids as [| k rest IHk]; intros A; [reflexivity |].
  simpl in A. apply orb_false_iff in A as (Ak & Ar).
  assert (Br : list_max (map height rest) < S n).
  { change (list_max (map height (k :: rest))) with
      (Nat.max (height k) (list_max (map height rest))) in B. lia. }
  assert (Er := IHk Br Ar).
  destruct k as [name id | name id sub | name id]; simpl in Ak.
  - simpl. rewrite Ak. exact Er.
  - assert (Bs : list_max (map height sub) < n).
    { pose proof (height_in (Folder name id sub) (Folder name id sub :: rest) (or_introl eq_refl)) as Hk.
      cbn [height] in Hk. cbn [map list_max fold_right] in B, Hk. lia. }
    assert (Es := IHn sub Bs Ak).
    simpl. rewrite Es, Er. reflexivity.
  - exact Er.
Qed.

(** ** Claims *)

Module ScenarioFacts.
Import Scenario.

Ltac entries :=
  repeat (constructor; [unfold entry_of; simpl; auto |]); try constructor.

Lemma serves_archive :
  serves self world_A hdr (JStr "drive-1") "archive" [File "Q1.xlsx" "aq1"; File "Q2.xlsx" "aq2"].
Proof.
  eapply serves_folder; [reflexivity | reflexivity | entries |].
  intros name id sub I. simpl in I.
  destruct I as [I | [I | []]]; discriminate I.
Qed.

Lemma serves_reports : serves self world_A hdr (JStr "drive-1") "reports" reports.
Proof.
  eapply serves_folder; [reflexivity | reflexivity | entries |].
  intros name id sub I. simpl in I.
  destruct I as [I | [I | []]]; [discriminate I |].
  injection I as <- <- <-. exact serves_archive.
Qed.


Lemma serves_empty_id : serves self world_E hdr (JStr "drive-1") "root" empty_id_tree.
Proof.
  eapply serves_folder; [reflexivity | reflexivity | entries |].
  intros name id sub I. simpl in I.
  destruct I as [I | [I | []]]; injection I as <- <- <-;
    (eapply serves_folder; [reflexivity | reflexivity | entries |]);
    intros name' id' sub' I'; simpl in I'; destruct I' as [I' | []]; discriminate I'.
Qed.

End ScenarioFacts.

(** Where a file has the empty identifier the code leaves the worded
    search: the recursive call into [A] returns that identifier, the worded
    search stops there, the code goes on to list [B] and returns the file
    it finds there. *)
Lemma find_file_drops_empty_handle :
  serves Scenario.self Scenario.world_E Scenario.hdr (JStr "drive-1") "root"
         Scenario.empty_id_tree
  /\ search_spec "t.txt" "root" Scenario.empty_id_tree = (["root"; "a"], Some "")
  /\ find_file Scenario.self Scenario.world_E 2 (JStr "drive-1") (JStr "root") "t.txt"
               Scenario.hdr
     = (listing_calls Scenario.self (JStr "drive-1") Scenario.hdr ["root"; "a"; "b"],
        Ok (JStr "b1"))
  /\ find_file Scenario.self Scenario.world_E 2 (JStr "drive-1") (JStr "root") "t.txt"
               Scenario.hdr
     <> run_search Scenario.self (JStr "drive-1") Scenario.hdr
                   (search_spec "t.txt" "root" Scenario.empty_id_tree).
Proof.
  split; [exact ScenarioFacts.serves_empty_id |].
  split; [reflexivity |].
  split; [reflexivity |].
  intros H. vm_compute in H. discriminate H.
Qed.

(** ** A failed listing *)


Section Failure.

Variable w : world.






End Failure.




(** C9.  On a tree that holds no file called [target], [find_file] (with
    depth left for the levels of the tree) returns [None] after one listing
    request for the folder it was given and for each folder below it, in
    the order parents first, siblings as listed; when the identifiers of the
    folders differ no request is issued twice. *)
Theorem find_file_absent_lists_each_folder_once self w h drive_id target folder_id kids depth :
  serves self w h drive_id folder_id kids ->
  existsb (has_file target) kids = false ->
  levels kids <= depth ->
  find_file self w depth drive_id (JStr folder_id) target h
  = (listing_calls self drive_id h (folder_id :: flat_map folder_ids kids), Ok JNull)
  /\ (NoDup (folder_id :: flat_map folder_ids kids) ->
      NoDup (fst (find_file self w depth drive_id (JStr folder_id) target h))).
Proof.
  intros S A L.
  assert (E : find_file self w depth drive_id (JStr folder_id) target h
              = (listing_calls self drive_id h (folder_id :: flat_map folder_ids kids), Ok JNull)).
  { rewrite (find_file_search self w h drive_id target depth folder_id kids S L).
    unfold search_truthy, search, run_search.
    rewrite (scan_absent _ target (levels kids) kids (Nat.lt_succ_diag_r _) A).
    reflexivity. }
  split; [exact E |].
  intros N. rewrite E. apply listing_calls_NoDup, N.
Qed.

Lemma find_file_absent_lists_each_folder_once_witness :
  find_file Scenario.self Scenario.world_A 2 (JStr "drive-1") (JStr "reports") "Q3.xlsx"
            Scenario.hdr
  = (listing_calls Scenario.self (JStr "drive-1") Scenario.hdr ["reports"; "archive"], Ok JNull)
  /\ (NoDup ["reports"; "archive"] ->
      NoDup (fst (find_file Scenario.self Scenario.world_A 2 (JStr "drive-1") (JStr "reports")
                            "Q3.xlsx" Scenario.hdr))).
Proof.
  apply (find_file_absent_lists_each_folder_once Scenario.self Scenario.world_A Scenario.hdr
           (JStr "drive-1") "Q3.xlsx" "reports" Scenario.reports 2).
  - exact ScenarioFacts.serves_reports.
  - reflexivity.
  - vm_compute; lia.
Defined.

(** C7.  Scenario A: in the tree [{Reports/{Q1.xlsx, Archive/{Q1.xlsx,
    Q2.xlsx}}}], with the folder match [Reports] and the target [Q1.xlsx],
    the search returns the identifier of [Reports/Q1.xlsx] after the one
    listing of [Reports]; the whole download issues no listing request for
    [Archive]. *)
Theorem scenario_A_top_level_match (depth : nat) :
  serves Scenario.self Scenario.world_A Scenario.hdr (JStr "drive-1") "reports" Scenario.reports
  /\ snd (get_drive_id Scenario.self Scenario.world_A "Reports")
     = Ok (JStr "drive-1", JStr "reports")
  /\ find_file Scenario.self Scenario.world_A (S depth) (JStr "drive-1") (JStr "reports")
               "Q1.xlsx" Scenario.hdr
     = ([Get (folder_url Scenario.self (JStr "drive-1") (JStr "reports")) Scenario.hdr],
        Ok (JStr "q1"))
  /\ (forall h, ~ In (Get Scenario.archive_url h)
                   (fst (download_file Scenario.self Scenario.world_A (S depth)
                                       "Q1.xlsx" "Reports")))
  /\ snd (download_file Scenario.self Scenario.world_A (S depth) "Q1.xlsx" "Reports") = Ok tt.
Proof.
  split; [exact ScenarioFacts.serves_reports |].
  split; [reflexivity |].
  split; [reflexivity |].
  split; [| reflexivity].
  intros h I.
  change (fst (download_file Scenario.self Scenario.world_A (S depth) "Q1.xlsx" "Reports"))
    with [AcquireToken; AcquireToken;
          Get (url Scenario.self) Scenario.hdr;
          Get (url Scenario.self ++ "drive-1/root/children") Scenario.hdr;
          Get (folder_url Scenario.self (JStr "drive-1") (JStr "reports")) Scenario.hdr;
          Get (file_url Scenario.self (JStr "drive-1") (JStr "q1")) Scenario.hdr;
          Retrieve (JStr "https://download.example/q1") (JStr "Q1.xlsx");
          Print msg_downloaded] in I.
  simpl in I. repeat (destruct I as [I | I]; [discriminate I |]). exact I.
Qed.

(** ** Name resolution *)

Lemma eq_str_exact (s n : string) : Py.eq_str (JStr s) n = true <-> s = n.
Proof. apply String.eqb_eq. Qed.

Lemma response_loop_first (items : list json) (n : string) :
  Forall has_name_and_id items ->
  response_loop items n
  = lift (match first_named n items with
          | Some item => Py.subscript item "id"
          | None => Ok JNull
          end).
Proof.
  unfold first_named. induction 1 as [| item rest (name & id & En & Ei) F IH];
    [reflexivity |].
  cbn [response_loop find]. unfold is_named at 1.
  rewrite En, bind_lift_ok. destruct (Py.eq_str name n); [reflexivity | exact IH].
Qed.

Lemma get_response_id_listing payload items (n : string) :
  listing payload items ->
  get_response_id (Json payload) n
  = lift (match first_named n items with
          | Some item => Py.subscript item "id"
          | None => Ok JNull
          end).
Proof.
  intros (V & F). unfold get_response_id. cbn [loads].
  rewrite bind_ret, V, bind_lift_ok. cbn [Py.iterate].
  rewrite bind_lift_ok, (response_loop_first items n F).
  assert (O : exists v, match first_named n items with
                        | Some item => Py.subscript item "id"
                        | None => Ok JNull
                        end = Ok v).
  { unfold first_named. destruct (find (is_named n) items) as [item |] eqn:E.
    - apply find_some in E as (I & _). rewrite Forall_forall in F.
      destruct (F item I) as (name & id & _ & Ei). exists id; exact Ei.
    - exists JNull; reflexivity. }
  destruct O as (v & O). rewrite O. reflexivity.
Qed.

Lemma first_named_here (n : string) before item after :
  is_named n item = true ->
  Forall (fun x => is_named n x = false) before ->
  first_named n (before ++ item :: after) = Some item.
Proof.
  intros N. unfold first_named. induction 1 as [| x before X F IH]; simpl.
  - rewrite N; reflexivity.
  - rewrite X; exact IH.
Qed.

Lemma first_named_none (n : string) items :
  Forall (fun x => is_named n x = false) items -> first_named n items = None.
Proof.
  unfold first_named. induction 1 as [| x items X F IH]; simpl; [| rewrite X]; auto.
Qed.

(** C2.  On a well-formed listing [get_response_id] returns the [id] of the
    first entry, in listing order, whose name is the string [n] itself
    (entries before it with another name, or the same name in another case,
    are passed over; entries after it are not looked at), returns [None]
    when no entry is called [n], and raises nothing. *)
Theorem get_response_id_first_match payload items (n : string) :
  listing payload items ->
  (forall before item after,
      items = (before ++ item :: after)%list ->
      is_named n item = true ->
      Forall (fun x => is_named n x = false) before ->
      exists id, Py.subscript item "id" = Ok id
                 /\ get_response_id (Json payload) n = ([], Ok id))
  /\ (Forall (fun x => is_named n x = false) items ->
      get_response_id (Json payload) n = ([], Ok JNull))
  /\ (exists v, get_response_id (Json payload) n = ([], Ok v)).
Proof.
  intros L. pose proof (get_response_id_listing payload items n L) as E.
  split; [| split].
  - intros before item after -> N B.
    rewrite (first_named_here n before item after N B) in E.
    destruct L as (_ & F). rewrite Forall_forall in F.
    destruct (F item (in_elt item before after)) as (name & id & _ & Ei).
    exists id. split; [exact Ei |]. rewrite E, Ei. reflexivity.
  - intros A. rewrite (first_named_none n items A) in E. exact E.
  - rewrite E. destruct (first_named n items) as [item |] eqn:Fn.
    + unfold first_named in Fn. apply find_some in Fn as (I & _).
      destruct L as (_ & F). rewrite Forall_forall in F.
      destruct (F item I) as (name & id & _ & Ei). exists id. rewrite Ei. reflexivity.
    + exists JNull. reflexivity.
Qed.

Lemma get_response_id_first_match_witness :
  get_response_id
    (Json (JObj [("value", JArr [Scenario.drive_entry "documents" "d0";
                                 Scenario.drive_entry "Documents" "d1";
                                 Scenario.drive_entry "Documents" "d2"])]))
    "Documents"
  = ([], Ok (JStr "d1")).
Proof.
  destruct (get_response_id_first_match
              (JObj [("value", JArr [Scenario.drive_entry "documents" "d0";
                                     Scenario.drive_entry "Documents" "d1";
                                     Scenario.drive_entry "Documents" "d2"])])
              [Scenario.drive_entry "documents" "d0"; Scenario.drive_entry "Documents" "d1";
               Scenario.drive_entry "Documents" "d2"]
              "Documents") as (First & _ & _).
  - split; [reflexivity |].
    repeat (constructor; [eexists; eexists; split; reflexivity |]). constructor.
  - destruct (First [Scenario.drive_entry "documents" "d0"]
                    (Scenario.drive_entry "Documents" "d1")
                    [Scenario.drive_entry "Documents" "d2"])
      as (id & Ei & E);
      [reflexivity | reflexivity | repeat constructor |].
    injection Ei as <-. exact E.
Defined.

(** ** The drive locator *)

Lemma get_token_calls w : fst (get_token w) = [AcquireToken].
Proof.
  unfold get_token, app_acquire_token, try_except, bind, emit, lift; simpl.
  destruct (acquire_token_for_client w) as [result | e]; simpl; [| reflexivity].
  destruct (Py.subscript result "access_token") as [token | e]; simpl; [| reflexivity].
  destruct (Py.str_add "Bearer " token); reflexivity.
Qed.

Lemma get_token_ok w hdr : snd (get_token w) = Ok hdr -> get_token w = ([AcquireToken], Ok hdr).
Proof. intros H. rewrite <- H, <- (get_token_calls w). symmetry; apply pair_eta. Qed.

Lemma bind_get_token_ok {B} w hdr (k : headers -> M B) :
  snd (get_token w) = Ok hdr ->
  bind (get_token w) k = (AcquireToken :: fst (k hdr), snd (k hdr)).
Proof. intros H. rewrite (get_token_ok w hdr H). reflexivity. Qed.

Lemma get_drive_id_resolves self w folder_match hdr drives drive_items children child_items
      drive_id root_folder_id :
  snd (get_token w) = Ok hdr ->
  requests_get w (url self) hdr = Response (Json drives) ->
  listing drives drive_items ->
  match first_named "Documents" drive_items with
  | Some item => Py.subscript item "id"
  | None => Ok JNull
  end = Ok drive_id ->
  requests_get w (url self ++ Py.str drive_id ++ "/root/children") hdr
  = Response (Json children) ->
  listing children child_items ->
  match first_named folder_match child_items with
  | Some item => Py.subscript item "id"
  | None => Ok JNull
  end = Ok root_folder_id ->
  get_drive_id self w folder_match
  = ([AcquireToken; Get (url self) hdr;
      Get (url self ++ Py.str drive_id ++ "/root/children") hdr],
     Ok (drive_id, root_folder_id)).
Proof.
  intros T G1 L1 D G2 L2 R. unfold get_drive_id.
  rewrite (bind_get_token_ok w hdr _ T), (get_response _ G1).
  rewrite (get_response_id_listing drives drive_items "Documents" L1), D, bind_lift_ok.
  rewrite (get_response _ G2).
  rewrite (get_response_id_listing children child_items folder_match L2), R, bind_lift_ok.
  reflexivity.
Qed.

(** C10.  [get_drive_id] resolves both names without looking at the kind of
    the entry: the first entry of the drive listing called [Documents],
    whatever it is, gives the drive, and when the first entry called
    [folder_match] among the children of the drive root is a file, the
    identifier of that file is returned as the root folder. *)
Theorem get_drive_id_ignores_entry_kind self w folder_match hdr drives drive_items
        children child_items before_d drive_entry after_d drive_id
        before_c entry after_c root_folder_id :
  snd (get_token w) = Ok hdr ->
  requests_get w (url self) hdr = Response (Json drives) ->
  listing drives drive_items ->
  drive_items = (before_d ++ drive_entry :: after_d)%list ->
  is_named "Documents" drive_entry = true ->
  Forall (fun x => is_named "Documents" x = false) before_d ->
  Py.subscript drive_entry "id" = Ok drive_id ->
  requests_get w (url self ++ Py.str drive_id ++ "/root/children") hdr
  = Response (Json children) ->
  listing children child_items ->
  child_items = (before_c ++ entry :: after_c)%list ->
  is_named folder_match entry = true ->
  Forall (fun x => is_named folder_match x = false) before_c ->
  Py.contains downloadUrl entry = Ok true ->
  Py.subscript entry "id" = Ok root_folder_id ->
  get_drive_id self w folder_match
  = ([AcquireToken; Get (url self) hdr;
      Get (url self ++ Py.str drive_id ++ "/root/children") hdr],
     Ok (drive_id, root_folder_id)).
Proof.
  intros T G1 L1 -> Nd Bd Id G2 L2 -> Nc Bc _ Ic.
  eapply get_drive_id_resolves; eauto.
  - rewrite (first_named_here _ _ _ _ Nd Bd). exact Id.
  - rewrite (first_named_here _ _ _ _ Nc Bc). exact Ic.
Qed.

Lemma get_drive_id_ignores_entry_kind_witness :
  get_drive_id Scenario.self Scenario.world_K "Reports"
  = ([AcquireToken; Get (url Scenario.self) Scenario.hdr;
      Get (url Scenario.self ++ "doc-file" ++ "/root/children") Scenario.hdr],
     Ok (JStr "doc-file", JStr "reports-file")).
Proof.
  apply (get_drive_id_ignores_entry_kind Scenario.self Scenario.world_K "Reports" Scenario.hdr
           (JObj [("@odata.context", JStr "ctx");
                  ("value", JArr [Scenario.file_entry "Documents" "doc-file";
                                  Scenario.drive_entry "Documents" "drive-1"])])
           [Scenario.file_entry "Documents" "doc-file"; Scenario.drive_entry "Documents" "drive-1"]
           (JObj [("@odata.context", JStr "ctx");
                  ("value", JArr [Scenario.file_entry "Reports" "reports-file";
                                  Scenario.folder_entry "Reports" "reports"])])
           [Scenario.file_entry "Reports" "reports-file"; Scenario.folder_entry "Reports" "reports"]
           [] (Scenario.file_entry "Documents" "doc-file")
           [Scenario.drive_entry "Documents" "drive-1"] (JStr "doc-file")
           [] (Scenario.file_entry "Reports" "reports-file")
           [Scenario.folder_entry "Reports" "reports"] (JStr "reports-file"));
    try reflexivity; try constructor;
    repeat (constructor; [eexists; eexists; split; reflexivity |]); constructor.
Defined.

(** ** Errors at the boundary of a method *)

Lemma try_except_reraise_calls {A} (m : M A) : fst (try_except m reraise) = fst m.
Proof.
  unfold try_except. destruct (snd m); [reflexivity | simpl; apply app_nil_r].
Qed.

Lemma try_except_reraise_raise {A} (m : M A) e :
  snd (try_except m reraise) = Raise e ->
  exists cause, snd m = Raise cause /\ e = RuntimeError (prefix_msg ++ str_exn cause).
Proof.
  unfold try_except. destruct (snd m) as [a | cause] eqn:E; simpl.
  - congruence.
  - intros H. injection H as <-. exists cause; auto.
Qed.

Lemma try_except_reraise_ok {A} (m : M A) a :
  snd (try_except m reraise) = Ok a -> snd m = Ok a.
Proof.
  unfold try_except. destruct (snd m) as [a' | cause] eqn:E; simpl; congruence.
Qed.

Lemma get_drive_id_error_shape self w folder_match e :
  snd (get_drive_id self w folder_match) = Raise e ->
  exists cause, e = RuntimeError (prefix_msg ++ str_exn cause).
Proof.
  intros H. apply try_except_reraise_raise in H as (cause & _ & E). exists cause; exact E.
Qed.

Lemma download_file_error_shape self w depth target folder_match e :
  snd (download_file self w depth target folder_match) = Raise e ->
  exists cause, e = RuntimeError (prefix_msg ++ str_exn cause).
Proof.
  intros H. apply try_except_reraise_raise in H as (cause & _ & E). exists cause; exact E.
Qed.

(** The search found nothing: the message is printed and nothing else is
    done. *)
Lemma download_file_reports_not_found self w depth target folder_match hdr ids v :
  snd (get_token w) = Ok hdr ->
  snd (get_drive_id self w folder_match) = Ok ids ->
  snd (find_file self w depth (fst ids) (snd ids) target hdr) = Ok v ->
  Py.truthy v = false ->
  download_file self w depth target folder_match
  = ((AcquireToken :: fst (get_drive_id self w folder_match)
        ++ fst (find_file self w depth (fst ids) (snd ids) target hdr)
        ++ [Print msg_not_found])%list,
     Ok tt).
Proof.
  intros T D F V. unfold download_file.
  rewrite (bind_get_token_ok w hdr _ T).
  rewrite (bind_ok (get_drive_id self w folder_match) _ ids D).
  rewrite (bind_ok (find_file self w depth (fst ids) (snd ids) target hdr) _ v F).
  rewrite V. reflexivity.
Qed.

Lemma bind_ok_inv {A B} (m : M A) (k : A -> M B) b :
  snd (bind m k) = Ok b -> exists a, snd m = Ok a /\ snd (k a) = Ok b.
Proof.
  unfold bind. destruct (snd m) as [a | e]; simpl; [eauto | discriminate].
Qed.

(** With Graph's own answer for the drive [None] the error comes from the
    missing [value] of that answer. *)
Lemma get_drive_id_without_documents_graph :
  get_drive_id Scenario.self Scenario.world_N' "Reports"
  = ([AcquireToken; Get (url Scenario.self) Scenario.hdr;
      Get (url Scenario.self ++ "None/root/children") Scenario.hdr],
     Raise (RuntimeError (prefix_msg ++ prefix_msg ++ "'value'"))).
Proof. reflexivity. Qed.

(** C4.  The folder match is not among the children of the drive root:
    [get_drive_id] returns [None] for the root folder, and [download_file]
    asks for the children of the folder [None] and raises on Graph's
    answer, where the claim has it report that the file was not found. *)
Theorem download_file_missing_folder_raises (depth : nat) :
  snd (get_drive_id Scenario.self Scenario.world_A "Missing") = Ok (JStr "drive-1", JNull)
  /\ download_file Scenario.self Scenario.world_A (S depth) "Q1.xlsx" "Missing"
     = ([AcquireToken; AcquireToken;
         Get (url Scenario.self) Scenario.hdr;
         Get (url Scenario.self ++ "drive-1/root/children") Scenario.hdr;
         Get (folder_url Scenario.self (JStr "drive-1") JNull) Scenario.hdr],
        Raise (RuntimeError (prefix_msg ++ prefix_msg ++ "'value'")))
  /\ folder_url Scenario.self (JStr "drive-1") JNull
     = "https://graph.microsoft.com/v1.0/sites/site-1/drives//drive-1/items/None/children".
Proof. repeat split. Qed.

(** C5 as stated fails: a site without the [Documents] library and a
    library whose children request is refused end in the same error, which
    no caller can tell apart. *)
Lemma missing_library_and_refused_listing_raise_alike :
  first_named "Documents" [Scenario.drive_entry "Documentos" "drive-9"] = None
  /\ requests_get Scenario.world_N' (url Scenario.self) Scenario.hdr
     = Scenario.page [Scenario.drive_entry "Documentos" "drive-9"]
  /\ snd (download_file Scenario.self Scenario.world_N' 1 "Q1.xlsx" "Reports")
     = Raise (RuntimeError (prefix_msg ++ prefix_msg ++ prefix_msg ++ "'value'"))
  /\ requests_get Scenario.world_R (url Scenario.self) Scenario.hdr
     = Scenario.page [Scenario.drive_entry "Documents" "drive-1"]
  /\ requests_get Scenario.world_R (url Scenario.self ++ "drive-1/root/children") Scenario.hdr
     = Scenario.graph_error
  /\ snd (download_file Scenario.self Scenario.world_R 1 "Q1.xlsx" "Reports")
     = snd (download_file Scenario.self Scenario.world_N' 1 "Q1.xlsx" "Reports").
Proof. repeat split. Qed.

(** C8, as amended.  When the identity provider answers without an
    [access_token], [download_file] raises the error of the module, whose
    text names the missing key and not what the provider said; when the call
    to the provider itself raises, the text of that exception is in the
    message.  In both cases nothing but the token request was issued, and in
    every run the token request comes first and is the only call of a run
    whose token request fails. *)
Theorem download_file_token_first self w depth target folder_match :
  (forall fields,
      acquire_token_for_client w = Ok (JObj fields) ->
      Py.lookup "access_token" fields = None ->
      download_file self w depth target folder_match
      = ([AcquireToken], Raise (RuntimeError (prefix_msg ++ prefix_msg ++ "'access_token'"))))
  /\ (forall e,
         acquire_token_for_client w = Raise e ->
         download_file self w depth target folder_match
         = ([AcquireToken], Raise (RuntimeError (prefix_msg ++ prefix_msg ++ str_exn e))))
  /\ (exists rest,
         fst (download_file self w depth target folder_match) = AcquireToken :: rest
         /\ ((exists e, snd (get_token w) = Raise e) -> rest = [])).
Proof.
  split; [| split].
  - intros fields A L. unfold download_file, get_token, app_acquire_token.
    rewrite A. cbn. rewrite L. reflexivity.
  - intros e A. unfold download_file, get_token, app_acquire_token.
    rewrite A. reflexivity.
  - unfold download_file. rewrite try_except_reraise_calls.
    destruct (snd (get_token w)) as [hdr | e] eqn:T.
    + rewrite (bind_get_token_ok w hdr _ T). eexists; split; [reflexivity |].
      intros (e & E). discriminate E.
    + rewrite (bind_raise _ _ e T), get_token_calls. exists []; auto.
Qed.

Lemma download_file_token_first_witness :
  download_file Scenario.self Scenario.world_X 2 "Q1.xlsx" "Reports"
  = ([AcquireToken], Raise (RuntimeError (prefix_msg ++ prefix_msg ++ "'access_token'"))).
Proof.
  apply (proj1 (download_file_token_first Scenario.self Scenario.world_X 2 "Q1.xlsx" "Reports")
               [("error", JStr "invalid_client");
                ("error_description", JStr Scenario.provider_message);
                ("error_codes", JArr [JNum 7000215])]);
    reflexivity.
Defined.

(** C8 as stated fails: what the provider said is not in the error. *)
Lemma token_error_drops_provider_message :
  acquire_token_for_client Scenario.world_X
  = Ok (JObj [("error", JStr "invalid_client");
              ("error_description", JStr Scenario.provider_message);
              ("error_codes", JArr [JNum 7000215])])
  /\ download_file Scenario.self Scenario.world_X 2 "Q1.xlsx" "Reports"
     = ([AcquireToken],
        Raise (RuntimeError "Erro ao baixar arquivo: Erro ao baixar arquivo: 'access_token'"))
  /\ Py.infix Scenario.provider_message
              "Erro ao baixar arquivo: Erro ao baixar arquivo: 'access_token'" = false
  /\ Py.infix "invalid_client"
              "Erro ao baixar arquivo: Erro ao baixar arquivo: 'access_token'" = false.
Proof. repeat split. Qed.

(** * Further properties of the search *)

(** Induction over the entries of a folder and, below each folder among
    them, over its own entries. *)
Lemma kids_ind (P : list node -> Prop) :
  P [] ->
  (forall name id rest, P rest -> P (File name id :: rest)) ->
  (forall name id sub rest, P sub -> P rest -> P (Folder name id sub :: rest)) ->
  (forall name id rest, P rest -> P (Other name id :: rest)) ->
  forall kids, P kids.
Proof.
  intros Hnil Hfile Hfolder Hother kids.
  assert (B : forall n ks, list_max (map height ks) < n -> P ks).
  { induction n as [| n IHn]; intros ks L; [lia |].
    induction ks as [| k rest IHk]; [exact Hnil |].
    change (list_max (map height (k :: rest)))
      with (Nat.max (height k) (list_max (map height rest))) in L.
    assert (Pr : P rest) by (apply IHk; lia).
    destruct k as [name id | name id sub | name id]; auto.
    apply Hfolder; [| exact Pr]. apply IHn. cbn [height] in L. lia. }
  apply (B (S (list_max (map height kids)))). lia.
Qed.

Lemma scan_folder accept target name id sub rest :
  scan accept target (search_node accept target) (Folder name id sub :: rest)
  = match snd (scan accept target (search_node accept target) sub) with
    | Some handle =>
        if accept handle
        then (id :: fst (scan accept target (search_node accept target) sub), Some handle)
        else ((id :: fst (scan accept target (search_node accept target) sub))
                ++ fst (scan accept target (search_node accept target) rest),
              snd (scan accept target (search_node accept target) rest))%list
    | None =>
        ((id :: fst (scan accept target (search_node accept target) sub))
           ++ fst (scan accept target (search_node accept target) rest),
         snd (scan accept target (search_node accept target) rest))%list
    end.
Proof.
  cbn [scan search_node fst snd].
  destruct (snd (scan accept target (search_node accept target) sub)) as [handle |] eqn:E;
    [destruct (accept handle) |]; reflexivity.
Qed.

Lemma scan_sound accept target : forall kids id,
  snd (scan accept target (search_node accept target) kids) = Some id ->
  existsb (has_file_id target id) kids = true.
Proof.
  intros kids. induction kids as [| name i rest IH | name i sub rest IHs IH | name i rest IH]
    using kids_ind; intros id.
  - discriminate.
  - cbn [scan existsb has_file_id]. destruct (String.eqb name target); simpl.
    + intros E. injection E as ->. rewrite String.eqb_refl. reflexivity.
    + intros E. apply IH, E.
  - rewrite scan_folder. cbn [existsb has_file_id].
    destruct (snd (scan accept target (search_node accept target) sub)) as [handle |] eqn:E.
    + destruct (accept handle); cbn [snd]; intros R.
      * injection R as ->. rewrite (IHs id eq_refl). reflexivity.
      * rewrite (IH id R). apply orb_true_r.
    + cbn [snd]. intros R. rewrite (IH id R). apply orb_true_r.
  - cbn [scan existsb has_file_id]. intros E. apply IH, E.
Qed.

Lemma scan_none_absent accept target : forall kids,
  existsb (has_file target) kids = false ->
  scan accept target (search_node accept target) kids = (flat_map folder_ids kids, None).
Proof.
  intros kids. apply (scan_absent accept target (S (list_max (map height kids)))). lia.
Qed.

Lemma scan_complete target : forall kids,
  existsb (has_file target) kids = true ->
  forallb (target_ids_nonempty target) kids = true ->
  exists id, snd (scan nonempty target (search_node nonempty target) kids) = Some id
             /\ nonempty id = true.
Proof.
  intros kids. induction kids as [| name i rest IH | name i sub rest IHs IH | name i rest IH]
    using kids_ind.
  - discriminate.
  - cbn [scan existsb has_file forallb target_ids_nonempty].
    destruct (String.eqb name target); simpl.
    + intros _ N. apply andb_true_iff in N as (N & _). exists i; auto.
    + intros A N. apply IH; assumption.
  - rewrite scan_folder. cbn [existsb has_file forallb target_ids_nonempty].
    intros A N. apply andb_true_iff in N as (Ns & Nr).
    destruct (existsb (has_file target) sub) eqn:As.
    + destruct (IHs eq_refl Ns) as (id & E & I). rewrite E, I. exists id; auto.
    + rewrite (scan_none_absent nonempty target sub As). cbn [snd]. apply IH; assumption.
  - cbn [scan existsb has_file forallb target_ids_nonempty]. intros A N. apply IH; assumption.
Qed.

Lemma NoDup_app_disjoint {A} (l1 l2 : list A) x :
  NoDup (l1 ++ l2) -> In x l1 -> In x l2 -> False.
Proof.
  induction l1 as [| a l1 IH]; simpl; intros N I1 I2; [exact I1 |].
  inversion N as [| ? ? Na Nr]; subst. destruct I1 as [-> | I1].
  - apply Na, in_or_app; auto.
  - apply IH; assumption.
Qed.

Lemma scan_visits accept target : forall kids,
  incl (fst (scan accept target (search_node accept target) kids)) (flat_map folder_ids kids)
  /\ (NoDup (flat_map folder_ids kids) ->
      NoDup (fst (scan accept target (search_node accept target) kids))).
Proof.
  intros kids. induction kids as [| name i rest IH | name i sub rest IHs IH | name i rest IH]
    using kids_ind.
  - split; [apply incl_refl | auto].
  - cbn [scan flat_map folder_ids app]. destruct (String.eqb name target); [| exact IH].
    split; [apply incl_nil_l | constructor].
  - destruct IHs as (Is & Ns), IH as (Ir & Nr).
    assert (Ia : incl ((i :: fst (scan accept target (search_node accept target) sub))
                         ++ fst (scan accept target (search_node accept target) rest))
                      (flat_map folder_ids (Folder name i sub :: rest))).
    { cbn [flat_map folder_ids]. apply incl_app.
      - apply incl_appl, incl_cons; [left; reflexivity | apply incl_tl, Is].
      - apply incl_appr, Ir. }
    assert (Na : NoDup (flat_map folder_ids (Folder name i sub :: rest)) ->
                 NoDup ((i :: fst (scan accept target (search_node accept target) sub))
                          ++ fst (scan accept target (search_node accept target) rest))).
    { cbn [flat_map folder_ids]. intros N.
      pose proof (NoDup_app_remove_r _ _ N) as N1.
      pose proof (NoDup_app_remove_l _ _ N) as N2.
      apply NoDup_app.
      - inversion N1 as [| ? ? Ni Nsub]; subst. constructor; [| apply Ns, Nsub].
        intros I. apply Ni, Is, I.
      - apply Nr, N2.
      - intros x I1 I2. apply (NoDup_app_disjoint _ _ x N).
        + destruct I1 as [-> | I1]; [left; reflexivity | right; apply Is, I1].
        + apply Ir, I2. }
    rewrite scan_folder.
    destruct (snd (scan accept target (search_node accept target) sub)) as [handle |];
      [destruct (accept handle) |]; cbn [fst]; try (split; assumption).
    split.
    + intros x I. apply Ia, in_or_app. left. exact I.
    + intros N. apply Na in N. apply NoDup_app_remove_r in N. exact N.
  - exact IH.
Qed.

(** ** Which events a run is made of *)

Lemma events_lift {A} (P : event -> Prop) (r : res A) : Forall P (fst (lift r)).
Proof. constructor. Qed.

Lemma events_bind {A B} (P : event -> Prop) (m : M A) (k : A -> M B) :
  Forall P (fst m) -> (forall a, snd m = Ok a -> Forall P (fst (k a))) ->
  Forall P (fst (bind m k)).
Proof.
  intros Fm Fk. unfold bind. destruct (snd m) as [a | e] eqn:E; simpl; [| exact Fm].
  apply Forall_app; split; [exact Fm | apply Fk; reflexivity].
Qed.

Lemma events_reraise {A} (P : event -> Prop) (m : M A) :
  Forall P (fst m) -> Forall P (fst (try_except m reraise)).
Proof. rewrite try_except_reraise_calls. auto. Qed.

Lemma events_get (P : event -> Prop) w u h : P (Get u h) -> Forall P (fst (get w u h)).
Proof.
  intros H. unfold get, bind, emit; simpl.
  destruct (requests_get w u h); simpl; repeat constructor; exact H.
Qed.

Lemma events_loads (P : event -> Prop) b : Forall P (fst (loads b)).
Proof. destruct b; constructor. Qed.

Lemma events_find_loop (P : event -> Prop) (recurse : json -> M json) target items :
  (forall sub, Forall P (fst (recurse sub))) ->
  Forall P (fst (find_loop recurse target items)).
Proof.
  intros R. induction items as [| item rest IH]; cbn [find_loop].
  - constructor.
  - apply events_bind; [apply events_lift |]. intros [|] _.
    + apply events_bind; [apply events_lift |]. intros name _.
      destruct (Py.eq_str name target); [apply events_lift | exact IH].
    + apply events_bind; [apply events_lift |]. intros [|] _; [| exact IH].
      apply events_bind; [apply events_lift |]. intros sub _.
      apply events_bind; [apply R |]. intros file_id _.
      destruct (Py.truthy file_id); [constructor | exact IH].
Qed.

Lemma find_file_events self w drive_id target h depth : forall folder_id,
  Forall (listing_request self drive_id h)
         (fst (find_file self w depth drive_id folder_id target h)).
Proof.
  induction depth as [| d IH]; intros folder_id; [constructor |].
  cbn [find_file]. apply events_reraise.
  apply events_bind; [apply events_get; exists folder_id; reflexivity |]. intros response _.
  apply events_bind; [apply events_loads |]. intros result _.
  apply events_bind; [apply events_lift |]. intros value _.
  apply events_bind; [apply events_lift |]. intros items _.
  apply events_find_loop. intros sub. apply IH.
Qed.

(** X1.  Whatever the world, the only calls [find_file] makes are listing
    requests for folders of the drive it was given, each sent with the
    headers it was given: it asks for no token, fetches no file and prints
    nothing. *)
Theorem find_file_only_lists_folders self w depth drive_id folder_id target h :
  Forall (listing_request self drive_id h)
         (fst (find_file self w depth drive_id folder_id target h)).
Proof. apply find_file_events. Qed.

(** X2.  On a tree the world serves, what [find_file] returns is [None] or
    the identifier of a file of the tree that is called [target]. *)
Theorem find_file_returns_target_file self w h drive_id target folder_id kids depth v :
  serves self w h drive_id folder_id kids ->
  levels kids <= depth ->
  snd (find_file self w depth drive_id (JStr folder_id) target h) = Ok v ->
  v = JNull \/ exists id, v = JStr id /\ existsb (has_file_id target id) kids = true.
Proof.
  intros S L. rewrite (find_file_search self w h drive_id target depth folder_id kids S L).
  unfold run_search, search_truthy, search. cbn [snd].
  destruct (snd (scan nonempty target (search_node nonempty target) kids)) as [id |] eqn:E;
    cbn [handle_value]; intros R; injection R as <-.
  - right. exists id. split; [reflexivity |]. eapply scan_sound, E.
  - left. reflexivity.
Qed.

Lemma find_file_returns_target_file_witness :
  JStr "aq2" = JNull
  \/ exists id, JStr "aq2" = JStr id /\ existsb (has_file_id "Q2.xlsx" id) Scenario.reports = true.
Proof.
  apply (find_file_returns_target_file Scenario.self Scenario.world_A Scenario.hdr
           (JStr "drive-1") "Q2.xlsx" "reports" Scenario.reports 2 (JStr "aq2")).
  - exact ScenarioFacts.serves_reports.
  - vm_compute; lia.
  - reflexivity.
Defined.

(** X3.  On a tree the world serves in which some file is called [target]
    and no such file has the empty identifier, [find_file] returns the
    non-empty identifier of one of these files. *)
Theorem find_file_finds_present_file self w h drive_id target folder_id kids depth :
  serves self w h drive_id folder_id kids ->
  levels kids <= depth ->
  existsb (has_file target) kids = true ->
  forallb (target_ids_nonempty target) kids = true ->
  exists id, snd (find_file self w depth drive_id (JStr folder_id) target h) = Ok (JStr id)
             /\ id <> ""
             /\ existsb (has_file_id target id) kids = true.
Proof.
  intros S L A N. rewrite (find_file_search self w h drive_id target depth folder_id kids S L).
  destruct (scan_complete target kids A N) as (id & E & I).
  exists id. unfold run_search, search_truthy, search. cbn [snd]. rewrite E.
  split; [reflexivity |]. split.
  - intros ->. discriminate I.
  - eapply scan_sound, E.
Qed.

Lemma find_file_finds_present_file_witness :
  exists id, snd (find_file Scenario.self Scenario.world_A 2 (JStr "drive-1") (JStr "reports")
                            "Q2.xlsx" Scenario.hdr) = Ok (JStr id)
             /\ id <> ""
             /\ existsb (has_file_id "Q2.xlsx" id) Scenario.reports = true.
Proof.
  apply (find_file_finds_present_file Scenario.self Scenario.world_A Scenario.hdr
           (JStr "drive-1") "Q2.xlsx" "reports" Scenario.reports 2).
  - exact ScenarioFacts.serves_reports.
  - vm_compute; lia.
  - reflexivity.
  - reflexivity.
Defined.

(** X4.  On a tree the world serves, found or not, [find_file] lists only
    folders of the tree, and lists none of them twice when their identifiers
    differ. *)
Theorem find_file_lists_no_folder_twice self w h drive_id target folder_id kids depth :
  serves self w h drive_id folder_id kids ->
  levels kids <= depth ->
  exists visited,
    fst (find_file self w depth drive_id (JStr folder_id) target h)
    = listing_calls self drive_id h visited
    /\ incl visited (folder_id :: flat_map folder_ids kids)
    /\ (NoDup (folder_id :: flat_map folder_ids kids) ->
        NoDup (fst (find_file self w depth drive_id (JStr folder_id) target h))).
Proof.
  intros S L. rewrite (find_file_search self w h drive_id target depth folder_id kids S L).
  destruct (scan_visits nonempty target kids) as (I & N).
  exists (fst (search_truthy target folder_id kids)).
  split; [reflexivity |]. unfold run_search, search_truthy, search. cbn [fst]. split.
  - apply incl_cons; [left; reflexivity | apply incl_tl, I].
  - intros D. apply listing_calls_NoDup. inversion D as [| ? ? Df Dk]; subst.
    constructor; [| apply N, Dk]. intros V. apply Df, I, V.
Qed.

Lemma find_file_lists_no_folder_twice_witness :
  exists visited,
    fst (find_file Scenario.self Scenario.world_A 2 (JStr "drive-1") (JStr "reports")
                   "Q2.xlsx" Scenario.hdr)
    = listing_calls Scenario.self (JStr "drive-1") Scenario.hdr visited
    /\ incl visited ("reports" :: flat_map folder_ids Scenario.reports)
    /\ (NoDup ("reports" :: flat_map folder_ids Scenario.reports) ->
        NoDup (fst (find_file Scenario.self Scenario.world_A 2 (JStr "drive-1")
                              (JStr "reports") "Q2.xlsx" Scenario.hdr))).
Proof.
  apply (find_file_lists_no_folder_twice Scenario.self Scenario.world_A Scenario.hdr
           (JStr "drive-1") "Q2.xlsx" "reports" Scenario.reports 2).
  - exact ScenarioFacts.serves_reports.
  - vm_compute; lia.
Defined.

Lemma find_loop_direct (recurse : json -> M json) target id : forall before items_b item rest,
  Forall2 entry_of items_b before ->
  forallb (fun k => negb (is_folder k) && negb (has_file target k)) before = true ->
  entry_of item (File target id) ->
  find_loop recurse target (items_b ++ item :: rest) = ([], Ok (JStr id)).
Proof.
  intros before items_b item rest F. induction F as [| x k items_b before E F IH]; intros B Ei.
  - destruct Ei as (En & Ei & Ef). simpl in En, Ei. cbn [app find_loop].
    rewrite Ef, bind_lift_ok, En, bind_lift_ok. cbn [Py.eq_str].
    rewrite String.eqb_refl, Ei. reflexivity.
  - cbn [forallb] in B. apply andb_true_iff in B as (Bk & B).
    apply andb_true_iff in Bk as (Bf & Bt). specialize (IH B Ei).
    destruct E as (En & _ & Ek).
    destruct k as [name i | name i sub | name i]; simpl in En, Bf, Bt.
    + cbn [app find_loop]. rewrite Ek, bind_lift_ok, En, bind_lift_ok. cbn [Py.eq_str].
      apply negb_true_iff in Bt. rewrite Bt. exact IH.
    + discriminate Bf.
    + destruct Ek as (Ef & Ed). cbn [app find_loop].
      rewrite Ef, bind_lift_ok, Ed, bind_lift_ok. exact IH.
Qed.

(** X5.  When the listing of the folder holds a file called [target] and
    the entries listed before it are neither folders nor files of that
    name, [find_file] returns the identifier of that file after this one
    request, whatever comes after it in the listing and whatever the world
    would answer for any other folder. *)
Theorem find_file_direct_child self w h drive_id folder_id target depth payload items
        before id after :
  requests_get w (folder_url self drive_id folder_id) h = Response (Json payload) ->
  Py.subscript payload "value" = Ok (JArr items) ->
  Forall2 entry_of items (before ++ File target id :: after) ->
  forallb (fun k => negb (is_folder k) && negb (has_file target k)) before = true ->
  find_file self w (S depth) drive_id folder_id target h
  = ([Get (folder_url self drive_id folder_id) h], Ok (JStr id)).
Proof.
  intros G V F B.
  apply Forall2_app_inv_r in F as (items_b & items_r & Fb & Fr & ->).
  inversion Fr as [| item k items_a ? Ei Fa]; subst.
  cbn [find_file]. rewrite (get_response _ G). cbn [loads].
  rewrite bind_ret, V, bind_lift_ok. cbn [Py.iterate].
  rewrite bind_lift_ok, (find_loop_direct _ target id before items_b item items_a Fb B Ei).
  reflexivity.
Qed.

Lemma find_file_direct_child_witness :
  find_file Scenario.self Scenario.world_F 1 (JStr "drive-1") (JStr "reports") "Q1.xlsx"
            Scenario.hdr
  = ([Get (folder_url Scenario.self (JStr "drive-1") (JStr "reports")) Scenario.hdr],
     Ok (JStr "q1")).
Proof.
  apply (find_file_direct_child Scenario.self Scenario.world_F Scenario.hdr (JStr "drive-1")
           (JStr "reports") "Q1.xlsx" 0
           (JObj [("@odata.context", JStr "ctx");
                  ("value", JArr [Scenario.file_entry "Q1.xlsx" "q1";
                                  Scenario.folder_entry "Archive" "archive"])])
           [Scenario.file_entry "Q1.xlsx" "q1"; Scenario.folder_entry "Archive" "archive"]
           [] "q1"
           [Folder "Archive" "archive" [File "Q1.xlsx" "aq1"; File "Q2.xlsx" "aq2"]]).
  - reflexivity.
  - reflexivity.
  - ScenarioFacts.entries.
  - reflexivity.
Defined.

(** * Further properties of the token and of name resolution *)

(** X6.  [get_token] asks the provider once; it returns exactly when the
    provider's result has a string under [access_token], and what it
    returns is that string after the word [Bearer] and a space. *)
Theorem get_token_bearer w hdr :
  fst (get_token w) = [AcquireToken]
  /\ (snd (get_token w) = Ok hdr <->
      exists result token,
        acquire_token_for_client w = Ok result
        /\ Py.subscript result "access_token" = Ok (JStr token)
        /\ hdr = "Bearer " ++ token).
Proof.
  split; [apply get_token_calls |].
  unfold get_token, app_acquire_token, try_except, bind, emit, lift; simpl.
  destruct (acquire_token_for_client w) as [result | e]; simpl.
  - destruct (Py.subscript result "access_token") as [token | e] eqn:E; simpl.
    + destruct token as [| b | n | s | l | m]; simpl;
        try (split; [discriminate | intros (r & t & R & T & _); injection R as <-;
                                     rewrite E in T; discriminate]).
      split.
      * intros H. injection H as <-. exists result, s. auto.
      * intros (r & t & R & T & ->). injection R as <-. rewrite E in T.
        injection T as <-. reflexivity.
    + split; [discriminate |]. intros (r & t & R & T & _). injection R as <-.
      rewrite E in T. discriminate.
  - split; [discriminate |]. intros (r & t & R & _). discriminate.
Qed.

Lemma response_loop_calls items n : fst (response_loop items n) = [].
Proof.
  induction items as [| item rest IH]; [reflexivity |]. cbn [response_loop].
  destruct (Py.subscript item "name") as [name | e]; [| reflexivity].
  rewrite bind_lift_ok. destruct (Py.eq_str name n); [reflexivity | exact IH].
Qed.

Lemma get_response_id_calls b n : fst (get_response_id b n) = [].
Proof.
  unfold get_response_id. rewrite try_except_reraise_calls.
  destruct b as [msg | payload]; [reflexivity |]. cbn [loads]. rewrite bind_ret.
  destruct (Py.subscript payload "value") as [value | e]; [| reflexivity].
  rewrite bind_lift_ok. destruct (Py.iterate value) as [items | e]; [| reflexivity].
  rewrite bind_lift_ok. apply response_loop_calls.
Qed.

Lemma response_loop_skip n : forall before rest,
  Forall (fun x => exists name, Py.subscript x "name" = Ok name /\ Py.eq_str name n = false)
         before ->
  response_loop (before ++ rest) n = response_loop rest n.
Proof.
  induction 1 as [| x before (name & En & Ne) F IH]; [reflexivity |].
  cbn [app response_loop]. rewrite En, bind_lift_ok, Ne. exact IH.
Qed.

(** X7.  [get_response_id] reads the entries only up to the first one called
    [n]: when the entries before it have other names, its [id] is returned
    whether or not those entries have an [id] and whatever follows it in
    the array. *)
Theorem get_response_id_stops_at_match payload before item after n id :
  Py.subscript payload "value" = Ok (JArr (before ++ item :: after)) ->
  Forall (fun x => exists name, Py.subscript x "name" = Ok name /\ Py.eq_str name n = false)
         before ->
  is_named n item = true ->
  Py.subscript item "id" = Ok id ->
  get_response_id (Json payload) n = ([], Ok id).
Proof.
  intros V B N I. unfold get_response_id. cbn [loads].
  rewrite bind_ret, V, bind_lift_ok. cbn [Py.iterate].
  rewrite bind_lift_ok, (response_loop_skip n before (item :: after) B).
  cbn [response_loop]. unfold is_named in N.
  destruct (Py.subscript item "name") as [name | e]; [| discriminate N].
  rewrite bind_lift_ok, N, I. reflexivity.
Qed.

Lemma get_response_id_stops_at_match_witness :
  get_response_id
    (Json (JObj [("value", JArr [JObj [("name", JStr "Shared")];
                                 Scenario.drive_entry "Documents" "d1";
                                 JNum 7; JStr "junk"])]))
    "Documents"
  = ([], Ok (JStr "d1")).
Proof.
  apply (get_response_id_stops_at_match
           (JObj [("value", JArr [JObj [("name", JStr "Shared")];
                                  Scenario.drive_entry "Documents" "d1";
                                  JNum 7; JStr "junk"])])
           [JObj [("name", JStr "Shared")]] (Scenario.drive_entry "Documents" "d1")
           [JNum 7; JStr "junk"] "Documents" (JStr "d1")).
  - reflexivity.
  - constructor; [exists (JStr "Shared"); split; reflexivity | constructor].
  - reflexivity.
  - reflexivity.
Defined.

(** X8.  An entry that cannot be read stops the resolution with the error
    of the module even though an entry called [n] follows it: this is so
    for an entry without a [name] that comes before any match, and for the
    first entry called [n] when it has no [id]. *)
Theorem get_response_id_unreadable_entry payload before bad after n e :
  Py.subscript payload "value" = Ok (JArr (before ++ bad :: after)) ->
  Forall (fun x => exists name, Py.subscript x "name" = Ok name /\ Py.eq_str name n = false)
         before ->
  Py.subscript bad "name" = Raise e
  \/ (is_named n bad = true /\ Py.subscript bad "id" = Raise e) ->
  get_response_id (Json payload) n = ([], Raise (RuntimeError (prefix_msg ++ str_exn e))).
Proof.
  intros V B H. unfold get_response_id. cbn [loads].
  rewrite bind_ret, V, bind_lift_ok. cbn [Py.iterate].
  rewrite bind_lift_ok, (response_loop_skip n before (bad :: after) B).
  cbn [response_loop]. destruct H as [En | (N & Ei)].
  - rewrite En. reflexivity.
  - unfold is_named in N. destruct (Py.subscript bad "name") as [name | e']; [| discriminate N].
    rewrite bind_lift_ok, N, Ei. reflexivity.
Qed.

Lemma get_response_id_unreadable_entry_witness :
  get_response_id
    (Json (JObj [("value", JArr [JObj [("id", JStr "d0")];
                                 Scenario.drive_entry "Documents" "d1"])]))
    "Documents"
  = ([], Raise (RuntimeError (prefix_msg ++ str_exn (KeyError "name")))).
Proof.
  apply (get_response_id_unreadable_entry
           (JObj [("value", JArr [JObj [("id", JStr "d0")];
                                  Scenario.drive_entry "Documents" "d1"])])
           [] (JObj [("id", JStr "d0")]) [Scenario.drive_entry "Documents" "d1"]
           "Documents" (KeyError "name")).
  - reflexivity.
  - constructor.
  - left. reflexivity.
Defined.

(** X9.  [get_response_id] makes no call of its own, and a response that is
    no listing makes it raise the error of the module around the text of
    what went wrong: the parser's message for a body that is not JSON, the
    missing key for a payload without [value]. *)
Theorem get_response_id_not_a_listing n :
  (forall b, fst (get_response_id b n) = [])
  /\ (forall msg, snd (get_response_id (NotJson msg) n)
                  = Raise (RuntimeError (prefix_msg ++ msg)))
  /\ (forall fields, Py.lookup "value" fields = None ->
                     snd (get_response_id (Json (JObj fields)) n)
                     = Raise (RuntimeError (prefix_msg ++ "'value'"))).
Proof.
  split; [intros b; apply get_response_id_calls |]. split.
  - reflexivity.
  - intros fields L. unfold get_response_id. cbn [loads]. rewrite bind_ret.
    cbn [Py.subscript]. rewrite L. reflexivity.
Qed.

Lemma get_response_id_not_a_listing_witness :
  snd (get_response_id
         (Json (JObj [("error", JObj [("code", JStr "itemNotFound")])])) "Documents")
  = Raise (RuntimeError (prefix_msg ++ "'value'")).
Proof.
  apply (proj2 (proj2 (get_response_id_not_a_listing "Documents"))
               [("error", JObj [("code", JStr "itemNotFound")])]).
  reflexivity.
Defined.

(** X10.  [get_response_id] of [spc_connector.py] never raises: where the
    one of [sharepoint_connector.py] returns, it returns the same; where
    that one raises, it prints the error and returns [None], as it does
    when no entry has the name. *)
Theorem spc_get_response_id_swallows b n :
  (forall v, snd (get_response_id b n) = Ok v -> Spc.get_response_id b n = ([], Ok v))
  /\ (forall e, snd (get_response_id b n) = Raise e ->
                exists text, Spc.get_response_id b n = ([Print ("Error: " ++ text)], Ok JNull)).
Proof.
  pose proof (get_response_id_calls b n) as C.
  unfold get_response_id, Spc.get_response_id in *.
  match goal with |- context [try_except ?m reraise] => set (body := m) in * end.
  rewrite try_except_reraise_calls in C. unfold try_except.
  destruct (snd body) as [a | cause] eqn:E; simpl; split.
  - intros v H. rewrite E in H. injection H as <-. rewrite <- C, <- E. symmetry. apply pair_eta.
  - intros e H. rewrite E in H. discriminate H.
  - discriminate.
  - intros e _. exists (str_exn cause). rewrite C. reflexivity.
Qed.

Lemma spc_get_response_id_swallows_witness :
  exists text,
    Spc.get_response_id (NotJson "Expecting value: line 1 column 1 (char 0)") "Documents"
    = ([Print ("Error: " ++ text)], Ok JNull).
Proof.
  apply (proj2 (spc_get_response_id_swallows
                  (NotJson "Expecting value: line 1 column 1 (char 0)") "Documents")
               (RuntimeError (prefix_msg ++ "Expecting value: line 1 column 1 (char 0)"))).
  reflexivity.
Defined.

(** * Further properties of the drive locator *)

Lemma get_calls w u h : fst (get w u h) = [Get u h].
Proof.
  unfold get, bind, emit; simpl. destruct (requests_get w u h); reflexivity.
Qed.

Lemma get_ok w u h content :
  snd (get w u h) = Ok content -> requests_get w u h = Response content.
Proof.
  unfold get, bind, emit; simpl. destruct (requests_get w u h); simpl; congruence.
Qed.

Lemma no_calls_bind {A B} (m : M A) (k : A -> M B) :
  fst m = [] -> fst (bind m k) = match snd m with Ok a => fst (k a) | Raise _ => [] end.
Proof.
  intros H. unfold bind. destruct (snd m); simpl; rewrite H; reflexivity.
Qed.

Lemma get_drive_id_shape self w folder_match :
  fst (get_drive_id self w folder_match) = [AcquireToken]
  \/ exists hdr,
      snd (get_token w) = Ok hdr
      /\ (fst (get_drive_id self w folder_match) = [AcquireToken; Get (url self) hdr]
          \/ exists response drive_id,
              requests_get w (url self) hdr = Response response
              /\ snd (get_response_id response "Documents") = Ok drive_id
              /\ fst (get_drive_id self w folder_match)
                 = [AcquireToken; Get (url self) hdr;
                    Get (url self ++ Py.str drive_id ++ "/root/children") hdr]).
Proof.
  unfold get_drive_id. rewrite try_except_reraise_calls.
  destruct (snd (get_token w)) as [hdr | e] eqn:T.
  - right. exists hdr. split; [reflexivity |].
    rewrite (bind_get_token_ok w hdr _ T). cbn [fst].
    destruct (requests_get w (url self) hdr) as [e | response] eqn:G.
    + left. rewrite (get_failed _ G). reflexivity.
    + rewrite (get_response _ G). cbn [fst].
      rewrite (no_calls_bind _ _ (get_response_id_calls response "Documents")).
      destruct (snd (get_response_id response "Documents")) as [drive_id | e] eqn:D;
        [| left; reflexivity].
      right. exists response, drive_id.
      split; [first [reflexivity | assumption] |]. split; [first [reflexivity | assumption] |].
      destruct (requests_get w (url self ++ Py.str drive_id ++ "/root/children") hdr)
        as [e | children] eqn:G2.
      * rewrite (get_failed _ G2). reflexivity.
      * rewrite (get_response _ G2). cbn [fst].
        rewrite (no_calls_bind _ _ (get_response_id_calls children folder_match)).
        destruct (snd (get_response_id children folder_match)); reflexivity.
  - left. rewrite (bind_raise _ _ e T). apply get_token_calls.
Qed.

(** X11.  When the library is there and no child of its root is called
    [folder_match], [get_drive_id] raises nothing: it returns the drive
    together with [None] for the root folder. *)
Theorem get_drive_id_folder_absent self w folder_match hdr drives drive_items
        before drive_entry after drive_id children child_items :
  snd (get_token w) = Ok hdr ->
  requests_get w (url self) hdr = Response (Json drives) ->
  listing drives drive_items ->
  drive_items = (before ++ drive_entry :: after)%list ->
  is_named "Documents" drive_entry = true ->
  Forall (fun x => is_named "Documents" x = false) before ->
  Py.subscript drive_entry "id" = Ok drive_id ->
  requests_get w (url self ++ Py.str drive_id ++ "/root/children") hdr
  = Response (Json children) ->
  listing children child_items ->
  Forall (fun x => is_named folder_match x = false) child_items ->
  get_drive_id self w folder_match
  = ([AcquireToken; Get (url self) hdr;
      Get (url self ++ Py.str drive_id ++ "/root/children") hdr],
     Ok (drive_id, JNull)).
Proof.
  intros T G1 L1 -> Nd Bd Id G2 L2 A.
  eapply get_drive_id_resolves; eauto.
  - rewrite (first_named_here _ _ _ _ Nd Bd). exact Id.
  - rewrite (first_named_none _ _ A). reflexivity.
Qed.

Lemma get_drive_id_folder_absent_witness :
  get_drive_id Scenario.self Scenario.world_A "Missing"
  = ([AcquireToken; Get (url Scenario.self) Scenario.hdr;
      Get (url Scenario.self ++ "drive-1" ++ "/root/children") Scenario.hdr],
     Ok (JStr "drive-1", JNull)).
Proof.
  apply (get_drive_id_folder_absent Scenario.self Scenario.world_A "Missing" Scenario.hdr
           (JObj [("@odata.context", JStr "ctx");
                  ("value", JArr [Scenario.drive_entry "Documents" "drive-1"])])
           [Scenario.drive_entry "Documents" "drive-1"]
           [] (Scenario.drive_entry "Documents" "drive-1") [] (JStr "drive-1")
           (JObj [("@odata.context", JStr "ctx");
                  ("value", JArr [Scenario.folder_entry "Reports" "reports"])])
           [Scenario.folder_entry "Reports" "reports"]);
    try reflexivity; try (repeat constructor; fail);
    split; try reflexivity;
    repeat (constructor; [eexists; eexists; split; reflexivity |]); constructor.
Defined.

(** X12.  Whatever the world, [get_drive_id] asks for a token first and then
    sends at most two requests, in this order: the drives of the site, and
    the children of the root of the drive whose identifier
    [get_response_id] resolved from the answer to the first; both carry the
    headers made from that token. *)
Theorem get_drive_id_at_most_two_requests self w folder_match :
  exists rest,
    fst (get_drive_id self w folder_match) = AcquireToken :: rest
    /\ (rest = []
        \/ exists hdr,
            snd (get_token w) = Ok hdr
            /\ (rest = [Get (url self) hdr]
                \/ exists response drive_id,
                    requests_get w (url self) hdr = Response response
                    /\ snd (get_response_id response "Documents") = Ok drive_id
                    /\ rest = [Get (url self) hdr;
                               Get (url self ++ Py.str drive_id ++ "/root/children") hdr])).
Proof.
  destruct (get_drive_id_shape self w folder_match)
    as [E | (hdr & T & [E | (response & d & G & D & E)])];
    rewrite E; eexists; (split; [reflexivity |]).
  - left; reflexivity.
  - right. exists hdr. split; [exact T | left; reflexivity].
  - right. exists hdr. split; [exact T |]. right. exists response, d. auto.
Qed.

(** * Further properties of the download *)

Lemma in_bind {A B} ev (m : M A) (k : A -> M B) :
  In ev (fst (bind m k)) -> In ev (fst m) \/ exists a, snd m = Ok a /\ In ev (fst (k a)).
Proof.
  unfold bind. destruct (snd m) as [a | e]; simpl; [| auto].
  intros I. apply in_app_or in I as [I | I]; [left; exact I | right; exists a; auto].
Qed.

Lemma fetch_file_cases self w drive_id file_id hdr :
  (exists e, fetch_file self w drive_id file_id hdr
             = ([Get (file_url self drive_id file_id) hdr], Raise e))
  \/ exists meta u f,
      requests_get w (file_url self drive_id file_id) hdr = Response (Json meta)
      /\ Py.subscript meta downloadUrl = Ok u
      /\ Py.subscript meta "name" = Ok f
      /\ ((exists e, urlretrieve w u f = Some e
                     /\ fetch_file self w drive_id file_id hdr
                        = ([Get (file_url self drive_id file_id) hdr; Retrieve u f], Raise e))
          \/ (urlretrieve w u f = None
              /\ fetch_file self w drive_id file_id hdr
                 = ([Get (file_url self drive_id file_id) hdr; Retrieve u f;
                     Print msg_downloaded], Ok tt))).
Proof.
  unfold fetch_file.
  destruct (requests_get w (file_url self drive_id file_id) hdr) as [e | [msg | meta]] eqn:G.
  - left. exists e. rewrite (get_failed _ G). reflexivity.
  - left. eexists. rewrite (get_response _ G). reflexivity.
  - rewrite (get_response _ G). cbn [loads]. rewrite bind_ret.
    destruct (Py.subscript meta downloadUrl) as [u | e] eqn:U;
      [| left; exists e; reflexivity].
    rewrite bind_lift_ok.
    destruct (Py.subscript meta "name") as [f | e] eqn:F;
      [| left; exists e; reflexivity].
    rewrite bind_lift_ok. right. exists meta, u, f. repeat (split; [assumption || reflexivity |]).
    unfold retrieve, print, bind, emit; simpl.
    destruct (urlretrieve w u f) as [e |] eqn:R; simpl.
    + left. exists e. split; reflexivity.
    + right. split; reflexivity.
Qed.

Lemma download_file_found self w depth target folder_match hdr ids v :
  snd (get_token w) = Ok hdr ->
  snd (get_drive_id self w folder_match) = Ok ids ->
  snd (find_file self w depth (fst ids) (snd ids) target hdr) = Ok v ->
  Py.truthy v = true ->
  fst (download_file self w depth target folder_match)
  = (AcquireToken :: fst (get_drive_id self w folder_match)
       ++ fst (find_file self w depth (fst ids) (snd ids) target hdr)
       ++ fst (fetch_file self w (fst ids) v hdr))%list
  /\ snd (download_file self w depth target folder_match)
     = snd (try_except (fetch_file self w (fst ids) v hdr) reraise).
Proof.
  intros T D F V. unfold download_file.
  rewrite try_except_reraise_calls.
  rewrite (bind_get_token_ok w hdr _ T).
  rewrite (bind_ok (get_drive_id self w folder_match) _ ids D).
  rewrite (bind_ok (find_file self w depth (fst ids) (snd ids) target hdr) _ v F).
  rewrite V. fold (fetch_file self w (fst ids) v hdr). cbn [fst snd]. split; [reflexivity |].
  unfold try_except. cbn [snd].
  destruct (snd (fetch_file self w (fst ids) v hdr)) eqn:E; cbn [snd]; rewrite ?E; reflexivity.
Qed.

Lemma get_drive_id_events self w folder_match :
  exists gets, fst (get_drive_id self w folder_match) = AcquireToken :: gets
               /\ forallb is_get gets = true.
Proof.
  destruct (get_drive_id_shape self w folder_match)
    as [E | (hdr & _ & [E | (response & d & _ & _ & E)])];
    rewrite E; eexists; split; reflexivity.
Qed.

Lemma find_file_gets self w depth drive_id folder_id target h :
  forallb is_get (fst (find_file self w depth drive_id folder_id target h)) = true.
Proof.
  apply forallb_forall. intros ev I.
  pose proof (find_file_events self w drive_id target h depth folder_id) as F.
  rewrite Forall_forall in F. destruct (F ev I) as (f & ->). reflexivity.
Qed.

Lemma not_get_not_in ev l : forallb is_get l = true -> is_get ev = false -> ~ In ev l.
Proof.
  intros F N I. rewrite forallb_forall in F. rewrite (F ev I) in N. discriminate.
Qed.

(** All the ways a run of [download_file] can go. *)
Lemma download_file_cases self w depth target folder_match :
  (exists e, snd (get_token w) = Raise e
             /\ fst (download_file self w depth target folder_match) = [AcquireToken]
             /\ raises (download_file self w depth target folder_match))
  \/ exists hdr,
      snd (get_token w) = Ok hdr
      /\ ((fst (download_file self w depth target folder_match)
           = AcquireToken :: fst (get_drive_id self w folder_match)
           /\ raises (download_file self w depth target folder_match))
          \/ exists ids,
              snd (get_drive_id self w folder_match) = Ok ids
              /\ ((fst (download_file self w depth target folder_match)
                   = (AcquireToken :: fst (get_drive_id self w folder_match)
                        ++ fst (find_file self w depth (fst ids) (snd ids) target hdr))%list
                   /\ raises (download_file self w depth target folder_match))
                  \/ exists v,
                      snd (find_file self w depth (fst ids) (snd ids) target hdr) = Ok v
                      /\ ((Py.truthy v = false
                           /\ download_file self w depth target folder_match
                              = ((AcquireToken :: fst (get_drive_id self w folder_match)
                                    ++ fst (find_file self w depth (fst ids) (snd ids) target hdr)
                                    ++ [Print msg_not_found])%list, Ok tt))
                          \/ (Py.truthy v = true
                              /\ fst (download_file self w depth target folder_match)
                                 = (AcquireToken :: fst (get_drive_id self w folder_match)
                                      ++ fst (find_file self w depth (fst ids) (snd ids)
                                                        target hdr)
                                      ++ fst (fetch_file self w (fst ids) v hdr))%list
                              /\ snd (download_file self w depth target folder_match)
                                 = snd (try_except (fetch_file self w (fst ids) v hdr)
                                                   reraise))))).
Proof.
  destruct (snd (get_token w)) as [hdr | e] eqn:T.
  - right. exists hdr. split; [reflexivity |].
    destruct (snd (get_drive_id self w folder_match)) as [ids | e] eqn:D.
    + right. exists ids. split; [reflexivity |].
      destruct (snd (find_file self w depth (fst ids) (snd ids) target hdr)) as [v | e] eqn:F.
      * right. exists v. split; [reflexivity |].
        destruct (Py.truthy v) eqn:V.
        -- right. split; [reflexivity |].
           apply (download_file_found self w depth target folder_match hdr ids v T D F V).
        -- left. split; [reflexivity |].
           apply (download_file_reports_not_found self w depth target folder_match hdr ids v
                    T D F V).
      * left. unfold download_file, raises. rewrite try_except_reraise_calls.
        rewrite (bind_get_token_ok w hdr _ T).
        rewrite (bind_ok (get_drive_id self w folder_match) _ ids D).
        rewrite (bind_raise _ _ e F). cbn [fst]. split; [reflexivity |].
        unfold try_except. cbn [snd]. eexists; reflexivity.
    + left. unfold download_file, raises. rewrite try_except_reraise_calls.
      rewrite (bind_get_token_ok w hdr _ T).
      rewrite (bind_raise _ _ e D). cbn [fst]. split; [reflexivity |].
      unfold try_except. cbn [snd]. eexists; reflexivity.
  - left. exists e. split; [reflexivity |].
    unfold download_file, raises. rewrite try_except_reraise_calls.
    rewrite (bind_raise _ _ e T), get_token_calls. split; [reflexivity |].
    unfold try_except. cbn [snd]. eexists; reflexivity.
Qed.

Lemma tail_event self w depth target folder_match ids hdr ev tail :
  In ev (AcquireToken :: fst (get_drive_id self w folder_match)
           ++ fst (find_file self w depth (fst ids) (snd ids) target hdr) ++ tail)%list ->
  is_get ev = false -> ev <> AcquireToken -> In ev tail.
Proof.
  intros I G A. destruct (get_drive_id_events self w folder_match) as (gets & E & Fg).
  rewrite E in I. destruct I as [I | I]; [congruence |].
  destruct I as [I | I]; [congruence |].
  apply in_app_or in I as [I | I]; [destruct (not_get_not_in ev gets Fg G I) |].
  apply in_app_or in I as [I | I]; [| exact I].
  destruct (not_get_not_in ev _ (find_file_gets self w depth (fst ids) (snd ids) target hdr) G I).
Qed.

Lemma fetch_file_run self w drive_id file_id hdr meta u f :
  requests_get w (file_url self drive_id file_id) hdr = Response (Json meta) ->
  Py.subscript meta downloadUrl = Ok u ->
  Py.subscript meta "name" = Ok f ->
  fetch_file self w drive_id file_id hdr
  = match urlretrieve w u f with
    | Some e => ([Get (file_url self drive_id file_id) hdr; Retrieve u f], Raise e)
    | None => ([Get (file_url self drive_id file_id) hdr; Retrieve u f; Print msg_downloaded],
               Ok tt)
    end.
Proof.
  intros G U F. unfold fetch_file. rewrite (get_response _ G). cbn [loads].
  rewrite bind_ret, U, bind_lift_ok, F, bind_lift_ok.
  unfold retrieve, print, bind, emit; simpl. destruct (urlretrieve w u f); reflexivity.
Qed.

(** X13.  When the search returns an identifier, [download_file] asks for
    the metadata of that item and saves the file from the address and under
    the name found in the metadata (the name searched for plays no part);
    the success message is the last thing it does. *)
Theorem download_file_saves_reported_name self w depth target folder_match hdr ids v meta u f :
  snd (get_token w) = Ok hdr ->
  snd (get_drive_id self w folder_match) = Ok ids ->
  snd (find_file self w depth (fst ids) (snd ids) target hdr) = Ok v ->
  Py.truthy v = true ->
  requests_get w (file_url self (fst ids) v) hdr = Response (Json meta) ->
  Py.subscript meta downloadUrl = Ok u ->
  Py.subscript meta "name" = Ok f ->
  urlretrieve w u f = None ->
  download_file self w depth target folder_match
  = ((AcquireToken :: fst (get_drive_id self w folder_match)
        ++ fst (find_file self w depth (fst ids) (snd ids) target hdr)
        ++ [Get (file_url self (fst ids) v) hdr; Retrieve u f; Print msg_downloaded])%list,
     Ok tt).
Proof.
  intros T D F V G U N R.
  destruct (download_file_found self w depth target folder_match hdr ids v T D F V) as (Ef & Es).
  rewrite (fetch_file_run self w (fst ids) v hdr meta u f G U N), R in Ef, Es.
  cbn [fst] in Ef. unfold try_except in Es. cbn [fst snd] in Es.
  rewrite <- (pair_eta (download_file self w depth target folder_match)), Ef, Es.
  reflexivity.
Qed.

Lemma download_file_saves_reported_name_witness :
  download_file Scenario.self Scenario.world_A 2 "Q1.xlsx" "Reports"
  = ((AcquireToken :: fst (get_drive_id Scenario.self Scenario.world_A "Reports")
        ++ fst (find_file Scenario.self Scenario.world_A 2 (JStr "drive-1") (JStr "reports")
                          "Q1.xlsx" Scenario.hdr)
        ++ [Get (file_url Scenario.self (JStr "drive-1") (JStr "q1")) Scenario.hdr;
            Retrieve (JStr "https://download.example/q1") (JStr "Q1.xlsx");
            Print msg_downloaded])%list,
     Ok tt).
Proof.
  apply (download_file_saves_reported_name Scenario.self Scenario.world_A 2 "Q1.xlsx" "Reports"
           Scenario.hdr (JStr "drive-1", JStr "reports") (JStr "q1")
           (Scenario.file_entry "Q1.xlsx" "q1")
           (JStr "https://download.example/q1") (JStr "Q1.xlsx"));
    reflexivity.
Defined.

(** X14.  When the transfer of the file fails, [download_file] raises the
    error of the module around the text of that failure, after the attempt
    and without printing the success message. *)
Theorem download_file_transfer_failure self w depth target folder_match hdr ids v meta u f e :
  snd (get_token w) = Ok hdr ->
  snd (get_drive_id self w folder_match) = Ok ids ->
  snd (find_file self w depth (fst ids) (snd ids) target hdr) = Ok v ->
  Py.truthy v = true ->
  requests_get w (file_url self (fst ids) v) hdr = Response (Json meta) ->
  Py.subscript meta downloadUrl = Ok u ->
  Py.subscript meta "name" = Ok f ->
  urlretrieve w u f = Some e ->
  download_file self w depth target folder_match
  = ((AcquireToken :: fst (get_drive_id self w folder_match)
        ++ fst (find_file self w depth (fst ids) (snd ids) target hdr)
        ++ [Get (file_url self (fst ids) v) hdr; Retrieve u f])%list,
     Raise (RuntimeError (prefix_msg ++ str_exn e))).
Proof.
  intros T D F V G U N R.
  destruct (download_file_found self w depth target folder_match hdr ids v T D F V) as (Ef & Es).
  rewrite (fetch_file_run self w (fst ids) v hdr meta u f G U N), R in Ef, Es.
  cbn [fst] in Ef. unfold try_except in Es. cbn [fst snd] in Es.
  rewrite <- (pair_eta (download_file self w depth target folder_match)), Ef, Es.
  reflexivity.
Qed.

Lemma download_file_transfer_failure_witness :
  download_file Scenario.self Scenario.world_T 2 "Q1.xlsx" "Reports"
  = ((AcquireToken :: fst (get_drive_id Scenario.self Scenario.world_T "Reports")
        ++ fst (find_file Scenario.self Scenario.world_T 2 (JStr "drive-1") (JStr "reports")
                          "Q1.xlsx" Scenario.hdr)
        ++ [Get (file_url Scenario.self (JStr "drive-1") (JStr "q1")) Scenario.hdr;
            Retrieve (JStr "https://download.example/q1") (JStr "Q1.xlsx")])%list,
     Raise (RuntimeError (prefix_msg ++ str_exn Scenario.transfer_error))).
Proof.
  apply (download_file_transfer_failure Scenario.self Scenario.world_T 2 "Q1.xlsx" "Reports"
           Scenario.hdr (JStr "drive-1", JStr "reports") (JStr "q1")
           (Scenario.file_entry "Q1.xlsx" "q1")
           (JStr "https://download.example/q1") (JStr "Q1.xlsx") Scenario.transfer_error);
    reflexivity.
Defined.

(** X15.  Whatever the world, [download_file] fetches a file only in a run
    in which the token, the drive and the search all succeeded, the search
    returned an identifier that counts as true, and the metadata of that
    item gave the address and the name it fetches with. *)
Theorem download_file_fetches_only_found self w depth target folder_match u f :
  In (Retrieve u f) (fst (download_file self w depth target folder_match)) ->
  exists hdr ids v meta,
    snd (get_token w) = Ok hdr
    /\ snd (get_drive_id self w folder_match) = Ok ids
    /\ snd (find_file self w depth (fst ids) (snd ids) target hdr) = Ok v
    /\ Py.truthy v = true
    /\ requests_get w (file_url self (fst ids) v) hdr = Response (Json meta)
    /\ Py.subscript meta downloadUrl = Ok u
    /\ Py.subscript meta "name" = Ok f.
Proof.
  intros I.
  destruct (download_file_cases self w depth target folder_match)
    as [(e & _ & E & _) | (hdr & T & [(E & _) | (ids & D & [(E & _) | (v & F & C)])])].
  - rewrite E in I. destruct I as [I | []]; discriminate I.
  - rewrite <- (app_nil_r (fst (get_drive_id self w folder_match))) in E.
    rewrite E in I.
    destruct (get_drive_id_events self w folder_match) as (gets & Eg & Fg).
    rewrite Eg in I. destruct I as [I | [I | I]]; try discriminate I.
    rewrite ?app_nil_r in I. destruct (not_get_not_in (Retrieve u f) gets Fg eq_refl I).
  - rewrite <- (app_nil_r (fst (find_file self w depth (fst ids) (snd ids) target hdr))) in E.
    rewrite E in I.
    apply (tail_event self w depth target folder_match ids hdr _ []) in I;
      [destruct I | reflexivity | discriminate].
  - destruct C as [(V & E) | (V & E & _)].
    + rewrite E in I. cbn [fst] in I.
      apply (tail_event self w depth target folder_match ids hdr) in I;
        [| reflexivity | discriminate].
      destruct I as [I | []]; discriminate I.
    + rewrite E in I.
      apply (tail_event self w depth target folder_match ids hdr) in I;
        [| reflexivity | discriminate].
      exists hdr, ids, v.
      destruct (fetch_file_cases self w (fst ids) v hdr)
        as [(e & R) | (meta & u' & f' & G & U & N & [(e & _ & R) | (_ & R)])];
        rewrite R in I; cbn [fst] in I.
      * destruct I as [I | []]; discriminate I.
      * destruct I as [I | [I | []]]; [discriminate I |]. injection I as <- <-.
        exists meta. auto 10.
      * destruct I as [I | [I | [I | []]]]; [discriminate I | | discriminate I].
        injection I as <- <-. exists meta. auto 10.
Qed.

Lemma download_file_fetches_only_found_witness :
  exists hdr ids v meta,
    snd (get_token Scenario.world_A) = Ok hdr
    /\ snd (get_drive_id Scenario.self Scenario.world_A "Reports") = Ok ids
    /\ snd (find_file Scenario.self Scenario.world_A 2 (fst ids) (snd ids) "Q1.xlsx" hdr) = Ok v
    /\ Py.truthy v = true
    /\ requests_get Scenario.world_A (file_url Scenario.self (fst ids) v) hdr
       = Response (Json meta)
    /\ Py.subscript meta downloadUrl = Ok (JStr "https://download.example/q1")
    /\ Py.subscript meta "name" = Ok (JStr "Q1.xlsx").
Proof.
  apply (download_file_fetches_only_found Scenario.self Scenario.world_A 2 "Q1.xlsx" "Reports"
           (JStr "https://download.example/q1") (JStr "Q1.xlsx")).
  vm_compute. auto 10.
Defined.

(** X16.  The success message is truthful: whatever the world, a run of
    [download_file] that prints it has fetched a file without an error and
    returns normally. *)
Theorem download_file_success_message_truthful self w depth target folder_match :
  In (Print msg_downloaded) (fst (download_file self w depth target folder_match)) ->
  snd (download_file self w depth target folder_match) = Ok tt
  /\ exists u f, In (Retrieve u f) (fst (download_file self w depth target folder_match))
                 /\ urlretrieve w u f = None.
Proof.
  intros I.
  destruct (download_file_cases self w depth target folder_match)
    as [(e & _ & E & _) | (hdr & T & [(E & _) | (ids & D & [(E & _) | (v & F & C)])])].
  - rewrite E in I. destruct I as [I | []]; discriminate I.
  - rewrite <- (app_nil_r (fst (get_drive_id self w folder_match))) in E.
    rewrite E in I.
    destruct (get_drive_id_events self w folder_match) as (gets & Eg & Fg).
    rewrite Eg in I. destruct I as [I | [I | I]]; try discriminate I.
    rewrite ?app_nil_r in I. destruct (not_get_not_in (Print msg_downloaded) gets Fg eq_refl I).
  - rewrite <- (app_nil_r (fst (find_file self w depth (fst ids) (snd ids) target hdr))) in E.
    rewrite E in I.
    apply (tail_event self w depth target folder_match ids hdr _ []) in I;
      [destruct I | reflexivity | discriminate].
  - destruct C as [(V & E) | (V & E & Es)].
    + rewrite E in I. cbn [fst] in I.
      apply (tail_event self w depth target folder_match ids hdr) in I;
        [| reflexivity | discriminate].
      destruct I as [I | []]; discriminate I.
    + rewrite E in I.
      apply (tail_event self w depth target folder_match ids hdr) in I;
        [| reflexivity | discriminate].
      destruct (fetch_file_cases self w (fst ids) v hdr)
        as [(e & R) | (meta & u & f & G & U & N & [(e & _ & R) | (Rn & R)])];
        rewrite R in I; cbn [fst] in I.
      * destruct I as [I | []]; discriminate I.
      * destruct I as [I | [I | []]]; discriminate I.
      * rewrite Es, E, R. split; [reflexivity |]. exists u, f. split; [| exact Rn].
        cbn [fst]. right. apply in_or_app. right. apply in_or_app. right.
        right. left. reflexivity.
Qed.

Lemma download_file_success_message_truthful_witness :
  snd (download_file Scenario.self Scenario.world_A 2 "Q1.xlsx" "Reports") = Ok tt
  /\ exists u f,
      In (Retrieve u f) (fst (download_file Scenario.self Scenario.world_A 2 "Q1.xlsx" "Reports"))
      /\ urlretrieve Scenario.world_A u f = None.
Proof.
  apply (download_file_success_message_truthful Scenario.self Scenario.world_A 2
           "Q1.xlsx" "Reports").
  vm_compute. auto 10.
Defined.

(** X17.  In a run whose first token request succeeds the provider is asked
    twice, once by [download_file] and once by [get_drive_id], before any
    other call, and never again. *)
Theorem download_file_asks_token_twice self w depth target folder_match hdr :
  snd (get_token w) = Ok hdr ->
  exists rest,
    fst (download_file self w depth target folder_match) = AcquireToken :: AcquireToken :: rest
    /\ ~ In AcquireToken rest.
Proof.
  intros T0.
  destruct (get_drive_id_events self w folder_match) as (gets & Eg & Fg).
  assert (Ng : ~ In AcquireToken gets) by (apply not_get_not_in; auto).
  destruct (download_file_cases self w depth target folder_match)
    as [(e & T & _) | (h & T & [(E & _) | (ids & D & [(E & _) | (v & F & C)])])].
  - congruence.
  - rewrite E, Eg. exists gets. auto.
  - rewrite E, Eg. eexists. split; [reflexivity |]. intros I.
    apply in_app_or in I as [I | I]; [auto |].
    exact (not_get_not_in AcquireToken _
             (find_file_gets self w depth (fst ids) (snd ids) target h) eq_refl I).
  - assert (Nt : forall tail, ~ In AcquireToken tail ->
                 ~ In AcquireToken
                      (gets ++ fst (find_file self w depth (fst ids) (snd ids) target h)
                            ++ tail)).
    { intros tail N I. apply in_app_or in I as [I | I]; [auto |].
      apply in_app_or in I as [I | I]; [| auto].
      exact (not_get_not_in AcquireToken _
               (find_file_gets self w depth (fst ids) (snd ids) target h) eq_refl I). }
    destruct C as [(V & E) | (V & E & _)].
    + rewrite E, Eg. eexists. split; [reflexivity |]. apply Nt.
      intros [I | []]; discriminate I.
    + rewrite E, Eg. eexists. split; [reflexivity |]. apply Nt.
      destruct (fetch_file_cases self w (fst ids) v h)
        as [(e & R) | (meta & u & f & _ & _ & _ & [(e & _ & R) | (_ & R)])];
        rewrite R; cbn [fst]; intros I;
        repeat (destruct I as [I | I]; [discriminate I |]); exact I.
Qed.

Lemma download_file_asks_token_twice_witness :
  exists rest,
    fst (download_file Scenario.self Scenario.world_A 2 "Q3.xlsx" "Reports")
    = AcquireToken :: AcquireToken :: rest
    /\ ~ In AcquireToken rest.
Proof.
  apply (download_file_asks_token_twice Scenario.self Scenario.world_A 2 "Q3.xlsx" "Reports"
           Scenario.hdr).
  reflexivity.
Defined.

Lemma last_tail {A} (l t : list A) (x d : A) : last (l ++ t ++ [x]) d = x.
Proof. rewrite app_assoc. apply last_last. Qed.

(** X18.  A run of [download_file] that returns normally ends by printing
    one of the two messages: the not-found message, and then nothing was
    fetched, or the success message. *)
Theorem download_file_normal_return_prints self w depth target folder_match :
  snd (download_file self w depth target folder_match) = Ok tt ->
  (last (fst (download_file self w depth target folder_match)) AcquireToken
   = Print msg_not_found
   /\ forall u f, ~ In (Retrieve u f) (fst (download_file self w depth target folder_match)))
  \/ last (fst (download_file self w depth target folder_match)) AcquireToken
     = Print msg_downloaded.
Proof.
  intros R.
  destruct (download_file_cases self w depth target folder_match)
    as [(e & _ & _ & (x & X)) | (hdr & T & [(_ & (x & X))
                                           | (ids & D & [(_ & (x & X)) | (v & F & C)])])];
    try congruence.
  destruct C as [(V & E) | (V & E & Es)].
  - left. rewrite E. cbn [fst]. split.
    + rewrite app_comm_cons. apply last_tail.
    + intros u f I.
      apply (tail_event self w depth target folder_match ids hdr) in I;
        [| reflexivity | discriminate].
      destruct I as [I | []]; discriminate I.
  - right. rewrite E. rewrite Es in R.
    destruct (fetch_file_cases self w (fst ids) v hdr)
      as [(e & Rf) | (meta & u & f & _ & _ & _ & [(e & _ & Rf) | (_ & Rf)])];
      rewrite Rf in R |- *; try discriminate R.
    cbn [fst]. rewrite app_comm_cons.
    change [Get (file_url self (fst ids) v) hdr; Retrieve u f; Print msg_downloaded]
      with ([Get (file_url self (fst ids) v) hdr; Retrieve u f] ++ [Print msg_downloaded])%list.
    rewrite (app_assoc (fst (find_file self w depth (fst ids) (snd ids) target hdr))).
    apply last_tail.
Qed.

Lemma download_file_normal_return_prints_witness :
  (last (fst (download_file Scenario.self Scenario.world_A 2 "Q3.xlsx" "Reports")) AcquireToken
   = Print msg_not_found
   /\ forall u f,
       ~ In (Retrieve u f) (fst (download_file Scenario.self Scenario.world_A 2
                                               "Q3.xlsx" "Reports")))
  \/ last (fst (download_file Scenario.self Scenario.world_A 2 "Q3.xlsx" "Reports")) AcquireToken
     = Print msg_downloaded.
Proof.
  apply (download_file_normal_return_prints Scenario.self Scenario.world_A 2
           "Q3.xlsx" "Reports").
  reflexivity.
Defined.

(** * Properties of the constructor *)

Lemma py_or_idem (a e : json) : py_or (py_or a e) e = py_or a e.
Proof.
  unfold py_or. destruct (Py.truthy a) eqn:A; [rewrite A; reflexivity |].
  destruct (Py.truthy e); reflexivity.
Qed.

(** X19.  Each of the five arguments that counts as false ([None], the
    empty string) is replaced by the environment variable of its name, and
    one that counts as true is used as it is: whenever the five values so
    resolved count as true, the constructor does what it does when called
    with these values as arguments on a host with any other environment. *)
Theorem init_resolves_arguments p environ'
        company_tenant_id client_id client_secret tenant_id site_name :
  Py.truthy (py_or company_tenant_id (environ_get p "COMPANY_TENANT_ID")) = true ->
  Py.truthy (py_or client_id (environ_get p "CLIENT_ID")) = true ->
  Py.truthy (py_or client_secret (environ_get p "CLIENT_SECRET")) = true ->
  Py.truthy (py_or tenant_id (environ_get p "TENANT_ID")) = true ->
  Py.truthy (py_or site_name (environ_get p "SITE_NAME")) = true ->
  __init__ p company_tenant_id client_id client_secret tenant_id site_name
  = __init__ {| environ := environ';
                ConfidentialClientApplication := ConfidentialClientApplication p;
                network_get := network_get p;
                network_retrieve := network_retrieve p |}
             (py_or company_tenant_id (environ_get p "COMPANY_TENANT_ID"))
             (py_or client_id (environ_get p "CLIENT_ID"))
             (py_or client_secret (environ_get p "CLIENT_SECRET"))
             (py_or tenant_id (environ_get p "TENANT_ID"))
             (py_or site_name (environ_get p "SITE_NAME")).
Proof.
  intros C I S T N. unfold __init__.
  set (c := py_or company_tenant_id (environ_get p "COMPANY_TENANT_ID")) in *.
  set (i := py_or client_id (environ_get p "CLIENT_ID")) in *.
  set (s := py_or client_secret (environ_get p "CLIENT_SECRET")) in *.
  set (t := py_or tenant_id (environ_get p "TENANT_ID")) in *.
  set (n := py_or site_name (environ_get p "SITE_NAME")) in *.
  unfold py_or. rewrite C, I, S, T, N. reflexivity.
Qed.

Lemma init_resolves_arguments_witness :
  __init__ Hosts.host_A JNull (JStr "") JNull (JStr "tenant-2") JNull
  = __init__ {| environ := fun _ => None;
                ConfidentialClientApplication := ConfidentialClientApplication Hosts.host_A;
                network_get := network_get Hosts.host_A;
                network_retrieve := network_retrieve Hosts.host_A |}
             (JStr "contoso.sharepoint.com") (JStr "client-1") (JStr "secret-1")
             (JStr "tenant-2") (JStr "Finance").
Proof.
  apply (init_resolves_arguments Hosts.host_A (fun _ => None)
           JNull (JStr "") JNull (JStr "tenant-2") JNull);
    reflexivity.
Defined.

(** X20.  When all five arguments count as true the environment is not
    consulted: a host that differs in its environment only constructs the
    same instance, with the same calls and the same outcome. *)
Theorem init_arguments_hide_environment p environ'
        company_tenant_id client_id client_secret tenant_id site_name :
  Py.truthy company_tenant_id = true ->
  Py.truthy client_id = true ->
  Py.truthy client_secret = true ->
  Py.truthy tenant_id = true ->
  Py.truthy site_name = true ->
  __init__ {| environ := environ';
              ConfidentialClientApplication := ConfidentialClientApplication p;
              network_get := network_get p;
              network_retrieve := network_retrieve p |}
           company_tenant_id client_id client_secret tenant_id site_name
  = __init__ p company_tenant_id client_id client_secret tenant_id site_name.
Proof.
  intros C I S T N. unfold __init__, py_or. rewrite C, I, S, T, N. reflexivity.
Qed.

Lemma init_arguments_hide_environment_witness :
  __init__ {| environ := fun _ => None;
              ConfidentialClientApplication := ConfidentialClientApplication Hosts.host_A;
              network_get := network_get Hosts.host_A;
              network_retrieve := network_retrieve Hosts.host_A |}
           (JStr "contoso.sharepoint.com") (JStr "c") (JStr "s") (JStr "t") (JStr "Finance")
  = __init__ Hosts.host_A (JStr "contoso.sharepoint.com") (JStr "c") (JStr "s") (JStr "t")
             (JStr "Finance").
Proof.
  apply (init_arguments_hide_environment Hosts.host_A (fun _ => None)
           (JStr "contoso.sharepoint.com") (JStr "c") (JStr "s") (JStr "t") (JStr "Finance"));
    reflexivity.
Defined.

Lemma init_after_tenant p company_tenant_id client_id client_secret tenant_id site_name tenant :
  py_or tenant_id (environ_get p "TENANT_ID") = JStr tenant ->
  __init__ p company_tenant_id client_id client_secret tenant_id site_name
  = (app <- lift (ConfidentialClientApplication p
                    (py_or client_id (environ_get p "CLIENT_ID"))
                    ("https://login.microsoftonline.com/" ++ tenant)
                    (py_or client_secret (environ_get p "CLIENT_SECRET"))) ;;
     headers <- get_token (world_of p app) ;;
     response <- get (world_of p app)
                     (site_url (py_or company_tenant_id (environ_get p "COMPANY_TENANT_ID"))
                               (py_or site_name (environ_get p "SITE_NAME")))
                     headers ;;
     site <- loads response ;;
     SHAREPOINT_SITE_ID <- lift (Py.subscript site "id") ;;
     ret ({| url := drives_url SHAREPOINT_SITE_ID |}, world_of p app)).
Proof.
  intros T. unfold __init__. rewrite T. cbn [Py.str_add]. rewrite bind_lift_ok. reflexivity.
Qed.

(** X21.  Without a tenant, neither as argument nor in the environment, the
    constructor raises a [TypeError] before the MSAL application is built
    and before any call is made; the error is not the [RuntimeError] of the
    methods. *)
Theorem init_without_tenant p company_tenant_id client_id client_secret tenant_id site_name :
  Py.truthy tenant_id = false ->
  environ p "TENANT_ID" = None ->
  exists msg,
    __init__ p company_tenant_id client_id client_secret tenant_id site_name
    = ([], Raise (TypeError msg)).
Proof.
  intros T E. unfold __init__, py_or, environ_get. rewrite T, E. cbn [Py.str_add].
  eexists. reflexivity.
Qed.

Lemma init_without_tenant_witness :
  exists msg,
    __init__ Hosts.host_bare (JStr "contoso.sharepoint.com") (JStr "c") (JStr "s") JNull
             (JStr "Finance")
    = ([], Raise (TypeError msg)).
Proof.
  apply (init_without_tenant Hosts.host_bare (JStr "contoso.sharepoint.com") (JStr "c")
           (JStr "s") JNull (JStr "Finance"));
    reflexivity.
Defined.

(** X22.  With a tenant, an application and a token, the constructor sends
    one request, for the site named by the company tenant and the site
    name, and the instance it builds addresses the drives of the site whose
    [id] the answer gives. *)
Theorem init_resolves_site p company_tenant_id client_id client_secret tenant_id site_name
        tenant app hdr site site_id :
  py_or tenant_id (environ_get p "TENANT_ID") = JStr tenant ->
  ConfidentialClientApplication p
    (py_or client_id (environ_get p "CLIENT_ID"))
    ("https://login.microsoftonline.com/" ++ tenant)
    (py_or client_secret (environ_get p "CLIENT_SECRET")) = Ok app ->
  snd (get_token (world_of p app)) = Ok hdr ->
  network_get p (site_url (py_or company_tenant_id (environ_get p "COMPANY_TENANT_ID"))
                          (py_or site_name (environ_get p "SITE_NAME"))) hdr
  = Response (Json site) ->
  Py.subscript site "id" = Ok site_id ->
  __init__ p company_tenant_id client_id client_secret tenant_id site_name
  = ([AcquireToken;
      Get (site_url (py_or company_tenant_id (environ_get p "COMPANY_TENANT_ID"))
                    (py_or site_name (environ_get p "SITE_NAME"))) hdr],
     Ok ({| url := "https://graph.microsoft.com/v1.0/sites/" ++ Py.str site_id ++ "/drives/" |},
         world_of p app)).
Proof.
  intros T A K G I.
  rewrite (init_after_tenant p _ _ _ _ _ tenant T), A, bind_lift_ok.
  rewrite (bind_get_token_ok (world_of p app) hdr _ K).
  assert (G' : requests_get (world_of p app)
                 (site_url (py_or company_tenant_id (environ_get p "COMPANY_TENANT_ID"))
                           (py_or site_name (environ_get p "SITE_NAME"))) hdr
               = Response (Json site)) by exact G.
  rewrite (get_response _ G'). cbn [loads]. rewrite bind_ret, I, bind_lift_ok. reflexivity.
Qed.

Lemma init_resolves_site_witness :
  __init__ Hosts.host_A JNull JNull JNull JNull JNull
  = ([AcquireToken; Get Hosts.site_A Scenario.hdr],
     Ok (Scenario.self, world_of Hosts.host_A Scenario.token_ok)).
Proof.
  apply (init_resolves_site Hosts.host_A JNull JNull JNull JNull JNull
           "tenant-1" Scenario.token_ok Scenario.hdr
           (JObj [("id", JStr "site-1"); ("name", JStr "Finance")]) (JStr "site-1"));
    reflexivity.
Defined.

(** X23.  When the token cannot be had the constructor raises what
    [get_token] raised, the error of the module, and the site is never
    asked for. *)
Theorem init_token_failure p company_tenant_id client_id client_secret tenant_id site_name
        tenant app e :
  py_or tenant_id (environ_get p "TENANT_ID") = JStr tenant ->
  ConfidentialClientApplication p
    (py_or client_id (environ_get p "CLIENT_ID"))
    ("https://login.microsoftonline.com/" ++ tenant)
    (py_or client_secret (environ_get p "CLIENT_SECRET")) = Ok app ->
  snd (get_token (world_of p app)) = Raise e ->
  __init__ p company_tenant_id client_id client_secret tenant_id site_name
  = ([AcquireToken], Raise e)
  /\ exists cause, e = RuntimeError (prefix_msg ++ str_exn cause).
Proof.
  intros T A K.
  rewrite (init_after_tenant p _ _ _ _ _ tenant T), A, bind_lift_ok.
  rewrite (bind_raise _ _ e K), get_token_calls. split; [reflexivity |].
  unfold get_token in K. apply try_except_reraise_raise in K as (cause & _ & ->).
  exists cause; reflexivity.
Qed.

Lemma init_token_failure_witness :
  __init__ Hosts.host_refused JNull JNull JNull JNull JNull
  = ([AcquireToken], Raise (RuntimeError (prefix_msg ++ "'access_token'")))
  /\ exists cause,
      RuntimeError (prefix_msg ++ "'access_token'") = RuntimeError (prefix_msg ++ str_exn cause).
Proof.
  apply (init_token_failure Hosts.host_refused JNull JNull JNull JNull JNull
           "tenant-1" Scenario.token_refused
           (RuntimeError (prefix_msg ++ "'access_token'")));
    reflexivity.
Defined.

(** X24.  What goes wrong after the token is raised as it is, not wrapped
    in the error of the module: the exception of a failed request, or the
    missing key when the answer for the site has no [id]. *)
Theorem init_site_failure_unwrapped p company_tenant_id client_id client_secret tenant_id
        site_name tenant app hdr :
  py_or tenant_id (environ_get p "TENANT_ID") = JStr tenant ->
  ConfidentialClientApplication p
    (py_or client_id (environ_get p "CLIENT_ID"))
    ("https://login.microsoftonline.com/" ++ tenant)
    (py_or client_secret (environ_get p "CLIENT_SECRET")) = Ok app ->
  snd (get_token (world_of p app)) = Ok hdr ->
  (forall e,
      network_get p (site_url (py_or company_tenant_id (environ_get p "COMPANY_TENANT_ID"))
                              (py_or site_name (environ_get p "SITE_NAME"))) hdr
      = ConnectionFailed e ->
      snd (__init__ p company_tenant_id client_id client_secret tenant_id site_name) = Raise e)
  /\ (forall fields,
         network_get p (site_url (py_or company_tenant_id (environ_get p "COMPANY_TENANT_ID"))
                                 (py_or site_name (environ_get p "SITE_NAME"))) hdr
         = Response (Json (JObj fields)) ->
         Py.lookup "id" fields = None ->
         snd (__init__ p company_tenant_id client_id client_secret tenant_id site_name)
         = Raise (KeyError "id")).
Proof.
  intros T A K.
  rewrite (init_after_tenant p _ _ _ _ _ tenant T), A, bind_lift_ok.
  rewrite (bind_get_token_ok (world_of p app) hdr _ K). cbn [snd]. split.
  - intros e G.
    assert (G' : requests_get (world_of p app)
                   (site_url (py_or company_tenant_id (environ_get p "COMPANY_TENANT_ID"))
                             (py_or site_name (environ_get p "SITE_NAME"))) hdr
                 = ConnectionFailed e) by exact G.
    rewrite (get_failed _ G'). reflexivity.
  - intros fields G L.
    assert (G' : requests_get (world_of p app)
                   (site_url (py_or company_tenant_id (environ_get p "COMPANY_TENANT_ID"))
                             (py_or site_name (environ_get p "SITE_NAME"))) hdr
                 = Response (Json (JObj fields))) by exact G.
    rewrite (get_response _ G'). cbn [loads snd]. rewrite bind_ret.
    cbn [Py.subscript]. rewrite L. reflexivity.
Qed.

Lemma init_site_failure_unwrapped_witness :
  snd (__init__ Hosts.host_no_site JNull JNull JNull JNull JNull) = Raise (KeyError "id").
Proof.
  apply (proj2 (init_site_failure_unwrapped Hosts.host_no_site JNull JNull JNull JNull JNull
                  "tenant-1" Scenario.token_ok Scenario.hdr eq_refl eq_refl eq_refl)
               [("error", JObj [("code", JStr "itemNotFound");
                                ("message", JStr "The resource could not be found.")])]);
    reflexivity.
Defined.

(** * [find_file] of [spc_connector.py] *)

(** X25.  Once started, [find_file] of [spc_connector.py] never raises; when
    the listing of its folder fails it prints the error and returns [None],
    which is also what it returns when the file is not there. *)
Theorem spc_find_file_never_raises self w depth drive_id folder_id target h :
  (exists v, snd (Spc.find_file self w (S depth) drive_id folder_id target h) = Ok v)
  /\ (failed (requests_get w (folder_url self drive_id folder_id) h) ->
      exists text,
        Spc.find_file self w (S depth) drive_id folder_id target h
        = ([Get (folder_url self drive_id folder_id) h; Print ("Error: " ++ text)], Ok JNull)).
Proof.
  split.
  - cbn [Spc.find_file]. unfold try_except.
    match goal with |- context [match snd ?m with _ => _ end] =>
      destruct (snd m) as [v | e] eqn:E end.
    + exists v. exact E.
    + exists JNull. reflexivity.
  - intros F. cbn [Spc.find_file].
    destruct (requests_get w (folder_url self drive_id folder_id) h) as [e | [msg | v]] eqn:G;
      [| | destruct F].
    + rewrite (get_failed _ G). exists (str_exn e). reflexivity.
    + rewrite (get_response _ G). exists msg. reflexivity.
Qed.

Lemma spc_find_file_never_raises_witness :
  exists text,
    Spc.find_file Scenario.self Scenario.world_F 1 (JStr "drive-1") (JStr "archive") "Q3.xlsx"
                  Scenario.hdr
    = ([Get (folder_url Scenario.self (JStr "drive-1") (JStr "archive")) Scenario.hdr;
        Print ("Error: " ++ text)], Ok JNull).
Proof.
  apply (proj2 (spc_find_file_never_raises Scenario.self Scenario.world_F 0 (JStr "drive-1")
                  (JStr "archive") "Q3.xlsx" Scenario.hdr)).
  vm_compute. exact I.
Defined.

(** * The claims settled with the lemmas above *)

(** C3, as amended.  When no entry of the drive listing is called
    [Documents], resolving the drive gives [None] and no error, and
    [get_drive_id] goes on to ask for the children of the root of the drive
    [None].  What it does is decided by the answer to that request alone:
    it raises the [RuntimeError] of the module around the text of the
    exception when the request fails, and around the text of what
    [get_response_id] raised when the answer is no listing, which for an
    error body without [value] is the prefix twice and ['value']; it
    returns otherwise.  No error of its own tells that the library is
    missing. *)
Theorem get_drive_id_without_documents self w folder_match hdr drives items :
  snd (get_token w) = Ok hdr ->
  requests_get w (url self) hdr = Response (Json drives) ->
  listing drives items ->
  Forall (fun x => is_named "Documents" x = false) items ->
  get_response_id (Json drives) "Documents" = ([], Ok JNull)
  /\ get_drive_id self w folder_match
     = ([AcquireToken; Get (url self) hdr;
         Get (url self ++ Py.str JNull ++ "/root/children") hdr],
        match requests_get w (url self ++ Py.str JNull ++ "/root/children") hdr with
        | ConnectionFailed e => Raise (RuntimeError (prefix_msg ++ str_exn e))
        | Response children =>
            match snd (get_response_id children folder_match) with
            | Ok root_folder_id => Ok (JNull, root_folder_id)
            | Raise e => Raise (RuntimeError (prefix_msg ++ str_exn e))
            end
        end)
  /\ (forall fields,
         requests_get w (url self ++ Py.str JNull ++ "/root/children") hdr
         = Response (Json (JObj fields)) ->
         Py.lookup "value" fields = None ->
         snd (get_drive_id self w folder_match)
         = Raise (RuntimeError (prefix_msg ++ prefix_msg ++ "'value'"))).
Proof.
  intros T G L A.
  assert (R : get_response_id (Json drives) "Documents" = ([], Ok JNull)).
  { rewrite (get_response_id_listing drives items "Documents" L).
    rewrite (first_named_none "Documents" items A). reflexivity. }
  assert (E : get_drive_id self w folder_match
              = ([AcquireToken; Get (url self) hdr;
                  Get (url self ++ Py.str JNull ++ "/root/children") hdr],
                 match requests_get w (url self ++ Py.str JNull ++ "/root/children") hdr with
                 | ConnectionFailed e => Raise (RuntimeError (prefix_msg ++ str_exn e))
                 | Response children =>
                     match snd (get_response_id children folder_match) with
                     | Ok root_folder_id => Ok (JNull, root_folder_id)
                     | Raise e => Raise (RuntimeError (prefix_msg ++ str_exn e))
                     end
                 end)).
  { unfold get_drive_id.
    rewrite (bind_get_token_ok w hdr _ T), (get_response _ G), R.
    change (@pair (list event) (res json) [] (Ok JNull)) with (lift (Ok JNull)).
    rewrite bind_lift_ok.
    destruct (requests_get w (url self ++ Py.str JNull ++ "/root/children") hdr)
      as [e | children] eqn:G2.
    - rewrite (get_failed _ G2). reflexivity.
    - rewrite (get_response _ G2).
      pose proof (get_response_id_calls children folder_match) as C.
      destruct (get_response_id children folder_match) as [calls [root | e]];
        cbn [fst] in C; subst calls; reflexivity. }
  split; [exact R |]. split; [exact E |].
  intros fields G2 V. rewrite E, G2. cbn [snd].
  unfold get_response_id. cbn [loads]. rewrite bind_ret. cbn [Py.subscript]. rewrite V.
  reflexivity.
Qed.

Lemma get_drive_id_without_documents_witness :
  get_response_id
    (Json (JObj [("@odata.context", JStr "ctx");
                 ("value", JArr [Scenario.drive_entry "Documentos" "drive-9"])]))
    "Documents"
  = ([], Ok JNull)
  /\ snd (get_drive_id Scenario.self Scenario.world_N' "Reports")
     = Raise (RuntimeError (prefix_msg ++ prefix_msg ++ "'value'")).
Proof.
  destruct (get_drive_id_without_documents Scenario.self Scenario.world_N' "Reports"
              Scenario.hdr
              (JObj [("@odata.context", JStr "ctx");
                     ("value", JArr [Scenario.drive_entry "Documentos" "drive-9"])])
              [Scenario.drive_entry "Documentos" "drive-9"])
    as (R & _ & V).
  - reflexivity.
  - reflexivity.
  - split; [reflexivity |].
    repeat (constructor; [eexists; eexists; split; reflexivity |]). constructor.
  - repeat constructor.
  - split; [exact R |].
    apply (V [("error", JObj [("code", JStr "itemNotFound");
                              ("message", JStr "The resource could not be found.")])]);
      reflexivity.
Defined.

(** C3 as stated fails: on a site without the library the error
    [get_drive_id] raises is the one it raises when the library is there
    and the listing of its root is refused, so it is no error for a missing
    drive. *)
Lemma missing_library_error_is_not_its_own :
  requests_get Scenario.world_N' (url Scenario.self) Scenario.hdr
  = Scenario.page [Scenario.drive_entry "Documentos" "drive-9"]
  /\ first_named "Documents" [Scenario.drive_entry "Documentos" "drive-9"] = None
  /\ requests_get Scenario.world_N' (url Scenario.self ++ "None/root/children") Scenario.hdr
     = Scenario.graph_error
  /\ get_drive_id Scenario.self Scenario.world_N' "Reports"
     = ([AcquireToken; Get (url Scenario.self) Scenario.hdr;
         Get (url Scenario.self ++ "None/root/children") Scenario.hdr],
        Raise (RuntimeError (prefix_msg ++ prefix_msg ++ "'value'")))
  /\ requests_get Scenario.world_R (url Scenario.self) Scenario.hdr
     = Scenario.page [Scenario.drive_entry "Documents" "drive-1"]
  /\ first_named "Documents" [Scenario.drive_entry "Documents" "drive-1"]
     = Some (Scenario.drive_entry "Documents" "drive-1")
  /\ snd (get_drive_id Scenario.self Scenario.world_R "Reports")
     = snd (get_drive_id Scenario.self Scenario.world_N' "Reports").
Proof. repeat split. Qed.

Lemma bind_raise_inv {A B} (m : M A) (k : A -> M B) e :
  snd (bind m k) = Raise e -> snd m = Raise e \/ exists a, snd m = Ok a /\ snd (k a) = Raise e.
Proof.
  unfold bind. destruct (snd m) as [a | e']; simpl; intros R.
  - right. exists a. auto.
  - left. injection R as ->. reflexivity.
Qed.

(** What [fetch_file] raises is what one of its three steps raised. *)
Lemma fetch_file_raise_inv self w drive_id file_id hdr cause :
  snd (fetch_file self w drive_id file_id hdr) = Raise cause ->
  requests_get w (file_url self drive_id file_id) hdr = ConnectionFailed cause
  \/ (exists msg, requests_get w (file_url self drive_id file_id) hdr = Response (NotJson msg)
                  /\ cause = LibError "JSONDecodeError" msg)
  \/ (exists meta,
         requests_get w (file_url self drive_id file_id) hdr = Response (Json meta)
         /\ (Py.subscript meta downloadUrl = Raise cause
             \/ exists u,
                 Py.subscript meta downloadUrl = Ok u
                 /\ (Py.subscript meta "name" = Raise cause
                     \/ exists f, Py.subscript meta "name" = Ok f
                                  /\ urlretrieve w u f = Some cause))).
Proof.
  unfold fetch_file.
  destruct (requests_get w (file_url self drive_id file_id) hdr) as [e | [msg | meta]] eqn:G.
  - rewrite (get_failed _ G). cbn [snd]. intros H. injection H as ->. left. reflexivity.
  - rewrite (get_response _ G). cbn [loads snd]. intros H. injection H as <-.
    right. left. exists msg. auto.
  - rewrite (get_response _ G). cbn [loads]. rewrite bind_ret. cbn [snd].
    intros H. right. right. exists meta. split; [reflexivity |].
    destruct (Py.subscript meta downloadUrl) as [u | e] eqn:U.
    + rewrite bind_lift_ok in H. right. exists u. split; [reflexivity |].
      destruct (Py.subscript meta "name") as [f | e] eqn:F.
      * rewrite bind_lift_ok in H. right. exists f. split; [reflexivity |].
        unfold retrieve, print, bind, emit in H; simpl in H.
        destruct (urlretrieve w u f) as [e |]; simpl in H; [| discriminate H].
        injection H as ->. reflexivity.
      * left. cbn in H. injection H as ->. reflexivity.
    + left. cbn in H. injection H as ->. reflexivity.
Qed.

(** C5, as amended.  Every error that leaves [download_file] has one shape:
    the [RuntimeError] of the module, whose text is the prefix followed by
    the text of the exception raised by the step that failed, which is what
    [get_token], [get_drive_id] or [find_file] raised, or else what the
    request for the metadata, the reading of the metadata or the transfer
    raised.  A search that found nothing is no error: the call returns
    after printing the not-found message. *)
Theorem download_file_uniform_error self w depth target folder_match :
  (forall e,
      snd (download_file self w depth target folder_match) = Raise e ->
      exists cause,
        e = RuntimeError (prefix_msg ++ str_exn cause)
        /\ (snd (get_token w) = Raise cause
            \/ exists hdr,
                snd (get_token w) = Ok hdr
                /\ (snd (get_drive_id self w folder_match) = Raise cause
                    \/ exists ids,
                        snd (get_drive_id self w folder_match) = Ok ids
                        /\ (snd (find_file self w depth (fst ids) (snd ids) target hdr)
                            = Raise cause
                            \/ exists v,
                                snd (find_file self w depth (fst ids) (snd ids) target hdr)
                                = Ok v
                                /\ Py.truthy v = true
                                /\ (requests_get w (file_url self (fst ids) v) hdr
                                    = ConnectionFailed cause
                                    \/ (exists msg,
                                           requests_get w (file_url self (fst ids) v) hdr
                                           = Response (NotJson msg)
                                           /\ cause = LibError "JSONDecodeError" msg)
                                    \/ (exists meta,
                                           requests_get w (file_url self (fst ids) v) hdr
                                           = Response (Json meta)
                                           /\ (Py.subscript meta downloadUrl = Raise cause
                                               \/ exists u,
                                                   Py.subscript meta downloadUrl = Ok u
                                                   /\ (Py.subscript meta "name" = Raise cause
                                                       \/ exists f,
                                                           Py.subscript meta "name" = Ok f
                                                           /\ urlretrieve w u f
                                                              = Some cause))))))))
  /\ (forall hdr ids v,
         snd (get_token w) = Ok hdr ->
         snd (get_drive_id self w folder_match) = Ok ids ->
         snd (find_file self w depth (fst ids) (snd ids) target hdr) = Ok v ->
         Py.truthy v = false ->
         snd (download_file self w depth target folder_match) = Ok tt
         /\ last (fst (download_file self w depth target folder_match)) AcquireToken
            = Print msg_not_found).
Proof.
  split.
  - intros e H. unfold download_file in H.
    apply try_except_reraise_raise in H as (cause & B & ->).
    exists cause. split; [reflexivity |].
    apply bind_raise_inv in B as [B | (hdr & T & B)]; [left; exact B |].
    right. exists hdr. split; [exact T |].
    apply bind_raise_inv in B as [B | (ids & D & B)]; [left; exact B |].
    right. exists ids. split; [exact D |].
    apply bind_raise_inv in B as [B | (v & F & B)]; [left; exact B |].
    right. exists v. split; [exact F |].
    destruct (Py.truthy v); [| discriminate B]. split; [reflexivity |].
    apply fetch_file_raise_inv. exact B.
  - intros hdr ids v T D F V.
    rewrite (download_file_reports_not_found self w depth target folder_match hdr ids v T D F V).
    split; [reflexivity |]. cbn [fst].
    rewrite app_comm_cons, app_assoc. apply last_last.
Qed.

Lemma download_file_uniform_error_witness :
  snd (download_file Scenario.self Scenario.world_A 2 "Q3.xlsx" "Reports") = Ok tt
  /\ last (fst (download_file Scenario.self Scenario.world_A 2 "Q3.xlsx" "Reports")) AcquireToken
     = Print msg_not_found.
Proof.
  apply (proj2 (download_file_uniform_error Scenario.self Scenario.world_A 2 "Q3.xlsx" "Reports")
               Scenario.hdr (JStr "drive-1", JStr "reports") JNull);
    reflexivity.
Defined.

Lemma has_file_id_nonempty target id : forall kids,
  forallb (target_ids_nonempty target) kids = true ->
  existsb (has_file_id target id) kids = true ->
  nonempty id = true.
Proof.
  intros kids. induction kids as [| name i rest IH | name i sub rest IHs IH | name i rest IH]
    using kids_ind; cbn [forallb existsb target_ids_nonempty has_file_id].
  - discriminate.
  - intros N H. apply andb_true_iff in N as (Nk & Nr).
    apply orb_true_iff in H as [H | H]; [| apply IH; assumption].
    apply andb_true_iff in H as (Hn & Hi). apply String.eqb_eq in Hi. subst i.
    rewrite Hn in Nk. exact Nk.
  - intros N H. apply andb_true_iff in N as (Nk & Nr).
    apply orb_true_iff in H as [H | H]; [apply IHs | apply IH]; assumption.
  - intros N H. apply andb_true_iff in N as (_ & Nr). apply IH; assumption.
Qed.

(** Where no file called [target] has the empty identifier, the test
    [if file_id:] lets through every handle a recursive call returns. *)
Lemma scan_truthy_is_worded target : forall kids,
  forallb (target_ids_nonempty target) kids = true ->
  scan nonempty target (search_node nonempty target) kids
  = scan (fun _ => true) target (search_node (fun _ => true) target) kids.
Proof.
  intros kids. induction kids as [| name i rest IH | name i sub rest IHs IH | name i rest IH]
    using kids_ind; cbn [forallb target_ids_nonempty]; intros N.
  - reflexivity.
  - apply andb_true_iff in N as (_ & Nr). cbn [scan]. rewrite (IH Nr). reflexivity.
  - apply andb_true_iff in N as (Ns & Nr). rewrite !scan_folder.
    rewrite <- (IHs Ns), <- (IH Nr).
    destruct (snd (scan nonempty target (search_node nonempty target) sub)) as [handle |] eqn:E;
      [| reflexivity].
    rewrite (has_file_id_nonempty target handle sub Ns (scan_sound _ _ _ _ E)). reflexivity.
  - apply andb_true_iff in N as (_ & Nr). cbn [scan]. exact (IH Nr).
Qed.

(** C1.  [find_file] lists the children of the folder it is given and goes
    through the entries in listing order: a file called [target] ends the
    search with its handle, no further entry being looked at; a folder is
    searched by a recursive call, whose handle, if it yields one, is passed
    upward at once without a look at the later siblings; any other entry is
    skipped.  This is so in [sharepoint_connector.py] and in
    [spc_connector.py], on every tree the world serves in which no file
    called [target] has the empty identifier, with depth left for the
    levels of the tree. *)
Theorem find_file_listing_order self w h drive_id target folder_id kids depth :
  serves self w h drive_id folder_id kids ->
  levels kids <= depth ->
  forallb (target_ids_nonempty target) kids = true ->
  find_file self w depth drive_id (JStr folder_id) target h
  = run_search self drive_id h (search_spec target folder_id kids)
  /\ Spc.find_file self w depth drive_id (JStr folder_id) target h
     = run_search self drive_id h (search_spec target folder_id kids).
Proof.
  intros S L N.
  assert (E : search_truthy target folder_id kids = search_spec target folder_id kids).
  { unfold search_truthy, search_spec, search. rewrite (scan_truthy_is_worded target kids N).
    reflexivity. }
  rewrite <- E. split.
  - apply find_file_search; assumption.
  - apply spc_find_file_search; assumption.
Qed.

Lemma find_file_listing_order_witness :
  serves Scenario.self Scenario.world_A Scenario.hdr (JStr "drive-1") "reports" Scenario.reports
  /\ levels Scenario.reports <= 2
  /\ forallb (target_ids_nonempty "Q2.xlsx") Scenario.reports = true
  /\ find_file Scenario.self Scenario.world_A 2 (JStr "drive-1") (JStr "reports") "Q2.xlsx"
               Scenario.hdr
     = run_search Scenario.self (JStr "drive-1") Scenario.hdr
                  (search_spec "Q2.xlsx" "reports" Scenario.reports).
Proof.
  split; [exact ScenarioFacts.serves_reports |].
  split; [vm_compute; lia |].
  split; [reflexivity |].
  apply (find_file_listing_order Scenario.self Scenario.world_A Scenario.hdr (JStr "drive-1")
           "Q2.xlsx" "reports" Scenario.reports 2).
  - exact ScenarioFacts.serves_reports.
  - vm_compute; lia.
  - reflexivity.
Defined.
